(** * Stock ledger: the migration's tables, policies and triggers, and the
      pages that drive them

    The repository is a stock-control application on a PostgreSQL backend.
    The data layer is one migration (four tables, row-level security
    policies, three trigger functions); the pages [Stock.tsx],
    [Dashboard.tsx] and the product page issue the statements.

    Conventions of the embedding:
    - a [DECIMAL(10,2)] value is the integer number of hundredths it
      denotes ([12.50] is [1250]); the column holds it when its absolute
      value is below [10^10] hundredths;
    - a [UUID] is a string, a [TIMESTAMPTZ] an integer instant; [NOW()] is
      an argument of every statement (one instant per transaction);
    - [gen_random_uuid()] is an argument as well: the identifier drawn;
    - tables with a primary key are finite maps from the key to the other
      columns; [stock_movements] is kept as the list of its rows in
      insertion order, since the history is read back in order;
    - a statement either commits a new database or is rolled back; when it
      is rolled back the model keeps every rule the row violates.  The
      engine reports one of them; which one is its own evaluation order,
      not something the migration fixes. *)

From stdpp Require Import gmap strings list fin_maps sorting.
From Stdlib Require Import ZArith Lia.

#[local] Set Warnings "-clear-no-such-hyp".

Abbreviation uuid := string (only parsing).
Abbreviation timestamptz := Z (only parsing).

(** ** Column type [DECIMAL(10,2)] *)

Definition numeric_10_2_limit : Z := (10 ^ 10)%Z.

Definition fits_numeric_10_2 (v : Z) : bool :=
  bool_decide (- numeric_10_2_limit < v < numeric_10_2_limit)%Z.

(** ** Rows *)

(** [public.profiles], keyed by [id]. *)
Record profile := {
  full_name : string;
  profile_created_at : timestamptz
}.

(** [public.categories], keyed by [id]. *)
Record category := {
  category_name : string;
  category_description : option string;
  category_created_at : timestamptz
}.

(** [public.products], keyed by [id]. *)
Record product := {
  name : string;
  description : option string;
  category_id : option uuid;
  product_unit : string;
  current_quantity : Z;
  minimum_quantity : Z;
  created_at : timestamptz;
  updated_at : timestamptz
}.

(** [public.stock_movements]. *)
Record stock_movement := {
  movement_id : uuid;
  product_id : uuid;
  movement_type : string;
  quantity : Z;
  responsible_user_id : uuid;
  notes : option string;
  movement_created_at : timestamptz
}.

Record db := {
  auth_users : gset uuid;
  profiles : gmap uuid profile;
  categories : gmap uuid category;
  products : gmap uuid product;
  stock_movements : list stock_movement
}.

Definition empty_db : db :=
  {| auth_users := ∅; profiles := ∅; categories := ∅; products := ∅;
     stock_movements := [] |}.

Definition with_products (ps : gmap uuid product) (d : db) : db :=
  {| auth_users := auth_users d; profiles := profiles d;
     categories := categories d; products := ps;
     stock_movements := stock_movements d |}.

Definition with_stock_movements (ms : list stock_movement) (d : db) : db :=
  {| auth_users := auth_users d; profiles := profiles d;
     categories := categories d; products := products d;
     stock_movements := ms |}.

Definition with_categories (cs : gmap uuid category) (d : db) : db :=
  {| auth_users := auth_users d; profiles := profiles d;
     categories := cs; products := products d;
     stock_movements := stock_movements d |}.

Definition with_current_quantity (q : Z) (p : product) : product :=
  {| name := name p; description := description p;
     category_id := category_id p; product_unit := product_unit p;
     current_quantity := q; minimum_quantity := minimum_quantity p;
     created_at := created_at p; updated_at := updated_at p |}.

Definition with_category_id (c : option uuid) (p : product) : product :=
  {| name := name p; description := description p;
     category_id := c; product_unit := product_unit p;
     current_quantity := current_quantity p;
     minimum_quantity := minimum_quantity p;
     created_at := created_at p; updated_at := updated_at p |}.

Definition with_updated_at (t : timestamptz) (p : product) : product :=
  {| name := name p; description := description p;
     category_id := category_id p; product_unit := product_unit p;
     current_quantity := current_quantity p;
     minimum_quantity := minimum_quantity p;
     created_at := created_at p; updated_at := t |}.

(** ** Row-level security

    Every table has row-level security enabled, so a command on a row is
    allowed only when some policy of the table for that command admits it.
    The list below is the migration's [CREATE POLICY] statements in order. *)

Inductive table := t_profiles | t_categories | t_products | t_stock_movements.
Inductive command := SELECT | INSERT | UPDATE | DELETE.

Definition table_eqb (a b : table) : bool :=
  match a, b with
  | t_profiles, t_profiles | t_categories, t_categories
  | t_products, t_products | t_stock_movements, t_stock_movements => true
  | _, _ => false
  end.

Definition command_eqb (a b : command) : bool :=
  match a, b with
  | SELECT, SELECT | INSERT, INSERT | UPDATE, UPDATE | DELETE, DELETE => true
  | _, _ => false
  end.

(** The role [authenticated]: the caller has a session. *)
Definition authenticated (uid : option uuid) : bool :=
  match uid with Some _ => true | None => false end.

(** The two shapes of [USING] / [WITH CHECK] expression in the migration:
    [true] and [auth.uid() = <column>]. *)
Inductive policy_expr := expr_true | expr_uid_eq (column : string).

Record policy := {
  on_table : table;
  for_command : command;
  to_authenticated : bool;   (* [TO authenticated]; otherwise every role *)
  expr : policy_expr
}.

Definition policies : list policy := [
  {| on_table := t_profiles; for_command := SELECT;
     to_authenticated := false; expr := expr_uid_eq "id" |};
  {| on_table := t_profiles; for_command := UPDATE;
     to_authenticated := false; expr := expr_uid_eq "id" |};
  {| on_table := t_categories; for_command := SELECT;
     to_authenticated := true; expr := expr_true |};
  {| on_table := t_categories; for_command := INSERT;
     to_authenticated := true; expr := expr_true |};
  {| on_table := t_categories; for_command := UPDATE;
     to_authenticated := true; expr := expr_true |};
  {| on_table := t_categories; for_command := DELETE;
     to_authenticated := true; expr := expr_true |};
  {| on_table := t_products; for_command := SELECT;
     to_authenticated := true; expr := expr_true |};
  {| on_table := t_products; for_command := INSERT;
     to_authenticated := true; expr := expr_true |};
  {| on_table := t_products; for_command := UPDATE;
     to_authenticated := true; expr := expr_true |};
  {| on_table := t_products; for_command := DELETE;
     to_authenticated := true; expr := expr_true |};
  {| on_table := t_stock_movements; for_command := SELECT;
     to_authenticated := true; expr := expr_true |};
  {| on_table := t_stock_movements; for_command := INSERT;
     to_authenticated := true; expr := expr_uid_eq "responsible_user_id" |}
].

(** [uid] is [auth.uid()]: the caller's identity, [None] for a caller
    without a session.  [cols] gives the row's UUID columns by name. *)
Definition eval_expr (uid : option uuid) (cols : string → option uuid)
    (e : policy_expr) : bool :=
  match e with
  | expr_true => true
  | expr_uid_eq c =>
      match uid, cols c with
      | Some u, Some v => bool_decide (u = v)
      | _, _ => false
      end
  end.

Definition applies (t : table) (c : command) (uid : option uuid)
    (cols : string → option uuid) (p : policy) : bool :=
  table_eqb (on_table p) t && command_eqb (for_command p) c
  && (negb (to_authenticated p) || authenticated uid)
  && eval_expr uid cols (expr p).

Definition permitted (t : table) (c : command) (uid : option uuid)
    (cols : string → option uuid) : bool :=
  existsb (applies t c uid cols) policies.

Definition key_columns (k : uuid) : string → option uuid :=
  λ c, if String.eqb c "id" then Some k else None.

Definition stock_movement_columns (m : stock_movement)
    : string → option uuid :=
  λ c, if String.eqb c "id" then Some (movement_id m)
       else if String.eqb c "product_id" then Some (product_id m)
       else if String.eqb c "responsible_user_id"
            then Some (responsible_user_id m)
       else None.

(** ** Outcome of a statement *)

Inductive violation :=
| row_level_security (t : table)
| not_null (column : string)
| numeric_field_overflow (column : string)
| check_constraint (condition : string)
| foreign_key (column : string)
| unique_violation (column : string).

Inductive outcome (A : Type) :=
| committed (a : A)
| rolled_back (vs : list violation).
Arguments committed {A} a.
Arguments rolled_back {A} vs.

(** The database after the statement: a rolled back statement leaves the
    one it started from. *)
Definition state_after (d : db) (o : outcome db) : db :=
  match o with committed d' => d' | rolled_back _ => d end.

Definition violated (b : bool) (v : violation) : list violation :=
  if b then [] else [v].

(** ** Constraints and triggers of [public.products] *)

(** Column types and [CHECK] constraints of a products row; they are
    evaluated on every row written, by an insert or by an update. *)
Definition products_check (p : product) : list violation :=
  violated (fits_numeric_10_2 (current_quantity p))
           (numeric_field_overflow "current_quantity")
  ++ violated (fits_numeric_10_2 (minimum_quantity p))
              (numeric_field_overflow "minimum_quantity")
  ++ violated (bool_decide (0 ≤ current_quantity p)%Z)
              (check_constraint "current_quantity >= 0")
  ++ violated (bool_decide (0 ≤ minimum_quantity p)%Z)
              (check_constraint "minimum_quantity >= 0").

(** [category_id UUID REFERENCES public.categories(id)]. *)
Definition products_category_fk (d : db) (p : product) : list violation :=
  match category_id p with
  | None => []
  | Some c => violated (bool_decide (is_Some (categories d !! c)))
                       (foreign_key "category_id")
  end.

(** [update_updated_at_column], run by the trigger
    [update_products_updated_at] before every update of a products row. *)
Definition update_updated_at_column (now : timestamptz) (NEW : product)
    : product :=
  with_updated_at now NEW.

(** [UPDATE public.products SET ... WHERE id = k], as the trigger
    function and the referential actions run it: with the owner's rights,
    so no policy filters the row.  No matching row is no error. *)
Definition update_products_where_id (now : timestamptz) (k : uuid)
    (set : product → product) (d : db) : outcome db :=
  match products d !! k with
  | None => committed d
  | Some old =>
      let NEW := update_updated_at_column now (set old) in
      match products_check NEW with
      | [] => committed (with_products (<[k := NEW]> (products d)) d)
      | vs => rolled_back vs
      end
  end.

(** [update_product_quantity], run by the trigger
    [on_stock_movement_created] after every insert of a movement. *)
Definition update_product_quantity (now : timestamptz)
    (NEW : stock_movement) (d : db) : outcome db :=
  if bool_decide (movement_type NEW = "entrada") then
    update_products_where_id now (product_id NEW)
      (λ p, with_current_quantity (current_quantity p + quantity NEW) p) d
  else if bool_decide (movement_type NEW = "saida") then
    update_products_where_id now (product_id NEW)
      (λ p, with_current_quantity
              (Z.max (current_quantity p - quantity NEW) 0) p) d
  else committed d.

(** ** [INSERT INTO stock_movements] *)

(** The columns the stock page sends; [new_quantity] is [None] for a JSON
    [null].  The other columns take their defaults. *)
Record movement_insert := {
  new_product_id : uuid;
  new_movement_type : string;
  new_quantity : option Z;
  new_notes : option string;
  new_responsible_user_id : uuid
}.

Definition movement_insert_columns (new_id : uuid) (r : movement_insert)
    : string → option uuid :=
  λ c, if String.eqb c "id" then Some new_id
       else if String.eqb c "product_id" then Some (new_product_id r)
       else if String.eqb c "responsible_user_id"
            then Some (new_responsible_user_id r)
       else None.

Definition quantity_violations (q : option Z) : list violation :=
  match q with
  | None => [not_null "quantity"]
  | Some q =>
      violated (fits_numeric_10_2 q) (numeric_field_overflow "quantity")
      ++ violated (bool_decide (0 < q)%Z) (check_constraint "quantity > 0")
  end.

(** Every rule of the table the proposed row breaks. *)
Definition stock_movements_violations (d : db) (uid : option uuid)
    (new_id : uuid) (r : movement_insert) : list violation :=
  violated (permitted t_stock_movements INSERT uid
              (movement_insert_columns new_id r))
           (row_level_security t_stock_movements)
  ++ quantity_violations (new_quantity r)
  ++ violated (bool_decide (new_movement_type r ∈ ["entrada"; "saida"]))
       (check_constraint "movement_type IN ('entrada', 'saida')")
  ++ violated (bool_decide (is_Some (products d !! new_product_id r)))
       (foreign_key "product_id")
  ++ violated (bool_decide (new_responsible_user_id r ∈ auth_users d))
       (foreign_key "responsible_user_id")
  ++ violated (bool_decide (new_id ∉ movement_id <$> stock_movements d))
       (unique_violation "id").

(** The row stored: [id] and [created_at] take their defaults. *)
Definition movement_row (now : timestamptz) (new_id : uuid)
    (r : movement_insert) (q : Z) : stock_movement :=
  {| movement_id := new_id;
     product_id := new_product_id r;
     movement_type := new_movement_type r;
     quantity := q;
     responsible_user_id := new_responsible_user_id r;
     notes := new_notes r;
     movement_created_at := now |}.

(** The statement and its trigger, one transaction: the row is stored,
    then [on_stock_movement_created] fires; a failure in either part
    rolls both back. *)
Definition insert_into_stock_movements (uid : option uuid)
    (now : timestamptz) (new_id : uuid) (r : movement_insert) (d : db)
    : outcome db :=
  match new_quantity r with
  | None => rolled_back (stock_movements_violations d uid new_id r)
  | Some q =>
      match stock_movements_violations d uid new_id r with
      | [] =>
          let NEW := movement_row now new_id r q in
          update_product_quantity now NEW
            (with_stock_movements (stock_movements d ++ [NEW]) d)
      | vs => rolled_back vs
      end
  end.


(** ** [UPDATE stock_movements] and [DELETE FROM stock_movements]

    Row-level security is enabled on the table, so either statement
    touches only the rows some policy for its command admits. *)

Definition stock_movements_check (d : db) (m : stock_movement)
    : list violation :=
  quantity_violations (Some (quantity m))
  ++ violated (bool_decide (movement_type m ∈ ["entrada"; "saida"]))
       (check_constraint "movement_type IN ('entrada', 'saida')")
  ++ violated (bool_decide (is_Some (products d !! product_id m)))
       (foreign_key "product_id")
  ++ violated (bool_decide (responsible_user_id m ∈ auth_users d))
       (foreign_key "responsible_user_id").

Definition targeted (c : command) (uid : option uuid) (k : uuid)
    (m : stock_movement) : bool :=
  bool_decide (movement_id m = k)
  && permitted t_stock_movements c uid (stock_movement_columns m).

Definition update_stock_movements (uid : option uuid) (k : uuid)
    (set : stock_movement → stock_movement) (d : db) : outcome db :=
  let rows :=
    (λ m, if targeted UPDATE uid k m then set m else m)
      <$> stock_movements d in
  match concat ((λ m, if targeted UPDATE uid k m
                      then stock_movements_check d (set m) else [])
                  <$> stock_movements d) with
  | [] => committed (with_stock_movements rows d)
  | vs => rolled_back vs
  end.

Definition delete_from_stock_movements (uid : option uuid) (k : uuid)
    (d : db) : outcome db :=
  committed
    (with_stock_movements
       (filter (λ m, targeted DELETE uid k m = false) (stock_movements d))
       d).

(** ** Statements on [public.products] *)

(** A column of a JSON body: left out (the column default applies), sent
    as [null], or sent with a value. *)
Inductive json_column (A : Type) :=
| omitted
| json_null
| json_value (a : A).
Arguments omitted {A}.
Arguments json_null {A}.
Arguments json_value {A} a.

(** A [NOT NULL] column with a default. *)
Definition not_null_column {A} (column : string) (dflt : A)
    (c : json_column A) : A * list violation :=
  match c with
  | omitted => (dflt, [])
  | json_null => (dflt, [not_null column])
  | json_value a => (a, [])
  end.

Record product_insert := {
  ins_name : string;
  ins_description : option string;
  ins_category_id : option uuid;
  ins_unit : string;
  ins_current_quantity : json_column Z;   (* [DEFAULT 0] *)
  ins_minimum_quantity : json_column Z    (* [DEFAULT 0] *)
}.

Definition insert_into_products (uid : option uuid) (now : timestamptz)
    (new_id : uuid) (r : product_insert) (d : db) : outcome db :=
  let cq := not_null_column "current_quantity" 0%Z (ins_current_quantity r) in
  let mq := not_null_column "minimum_quantity" 0%Z (ins_minimum_quantity r) in
  let NEW := {| name := ins_name r; description := ins_description r;
                category_id := ins_category_id r;
                product_unit := ins_unit r;
                current_quantity := cq.1; minimum_quantity := mq.1;
                created_at := now; updated_at := now |} in
  match violated (permitted t_products INSERT uid (key_columns new_id))
                 (row_level_security t_products)
        ++ cq.2 ++ mq.2 ++ products_check NEW ++ products_category_fk d NEW
        ++ violated (bool_decide (products d !! new_id = None))
                    (unique_violation "id") with
  | [] => committed (with_products (<[new_id := NEW]> (products d)) d)
  | vs => rolled_back vs
  end.

(** The [SET] list of an update: [None] leaves the column alone; for the
    two quantities [Some None] assigns [NULL]. *)
Record product_update := {
  upd_name : option string;
  upd_description : option (option string);
  upd_category_id : option (option uuid);
  upd_unit : option string;
  upd_current_quantity : option (option Z);
  upd_minimum_quantity : option (option Z)
}.

Definition assigned_quantity (column : string) (old : Z)
    (a : option (option Z)) : Z * list violation :=
  match a with
  | None => (old, [])
  | Some None => (old, [not_null column])
  | Some (Some q) => (q, [])
  end.

Definition update_products (uid : option uuid) (now : timestamptz)
    (k : uuid) (u : product_update) (d : db) : outcome db :=
  match products d !! k with
  | None => committed d
  | Some old =>
      if permitted t_products UPDATE uid (key_columns k) then
        let cq := assigned_quantity "current_quantity"
                    (current_quantity old) (upd_current_quantity u) in
        let mq := assigned_quantity "minimum_quantity"
                    (minimum_quantity old) (upd_minimum_quantity u) in
        let NEW := update_updated_at_column now
          {| name := default (name old) (upd_name u);
             description := default (description old) (upd_description u);
             category_id := default (category_id old) (upd_category_id u);
             product_unit := default (product_unit old) (upd_unit u);
             current_quantity := cq.1; minimum_quantity := mq.1;
             created_at := created_at old; updated_at := updated_at old |} in
        match cq.2 ++ mq.2 ++ products_check NEW
              ++ match upd_category_id u with
                 | Some _ => products_category_fk d NEW
                 | None => []
                 end with
        | [] => committed (with_products (<[k := NEW]> (products d)) d)
        | vs => rolled_back vs
        end
      else committed d
  end.

(** [product_id ... REFERENCES public.products(id) ON DELETE CASCADE]: the
    movements of a deleted product go with it. *)
Definition delete_from_products (uid : option uuid) (k : uuid) (d : db)
    : outcome db :=
  match products d !! k with
  | None => committed d
  | Some _ =>
      if permitted t_products DELETE uid (key_columns k) then
        committed
          {| auth_users := auth_users d; profiles := profiles d;
             categories := categories d;
             products := delete k (products d);
             stock_movements :=
               filter (λ m, product_id m ≠ k) (stock_movements d) |}
      else committed d
  end.

(** ** Statements on [public.categories] *)

Definition insert_into_categories (uid : option uuid) (now : timestamptz)
    (new_id : uuid) (nm : string) (descr : option string) (d : db)
    : outcome db :=
  match violated (permitted t_categories INSERT uid (key_columns new_id))
                 (row_level_security t_categories)
        ++ violated (bool_decide
                       (map_Forall (λ _ c, category_name c ≠ nm)
                                   (categories d)))
                    (unique_violation "name")
        ++ violated (bool_decide (categories d !! new_id = None))
                    (unique_violation "id") with
  | [] => committed
            (with_categories
               (<[new_id := {| category_name := nm;
                               category_description := descr;
                               category_created_at := now |}]>
                  (categories d)) d)
  | vs => rolled_back vs
  end.

(** [category_id ... REFERENCES public.categories(id) ON DELETE SET NULL]:
    the referential action is an update of the referencing products rows,
    so [update_products_updated_at] fires on each of them. *)
Definition on_delete_set_null (now : timestamptz) (k : uuid) (p : product)
    : product :=
  if bool_decide (category_id p = Some k)
  then update_updated_at_column now (with_category_id None p)
  else p.

Definition delete_from_categories (uid : option uuid) (now : timestamptz)
    (k : uuid) (d : db) : outcome db :=
  match categories d !! k with
  | None => committed d
  | Some _ =>
      if permitted t_categories DELETE uid (key_columns k) then
        match concat ((λ kp, if bool_decide (category_id kp.2 = Some k)
                             then products_check
                                    (on_delete_set_null now k kp.2)
                             else [])
                        <$> map_to_list (products d)) with
        | [] => committed
                  {| auth_users := auth_users d; profiles := profiles d;
                     categories := delete k (categories d);
                     products := on_delete_set_null now k <$> products d;
                     stock_movements := stock_movements d |}
        | vs => rolled_back vs
        end
      else committed d
  end.

(** ** Registration: [handle_new_user]

    The trigger [on_auth_user_created] creates the profile of a new
    identity; [meta_full_name] is [raw_user_meta_data->>'full_name']. *)
Definition handle_new_user (now : timestamptz) (new_id : uuid)
    (meta_full_name : option string) (d : db) : outcome db :=
  match violated (bool_decide (profiles d !! new_id = None))
                 (unique_violation "id") with
  | [] => committed
            {| auth_users := auth_users d;
               profiles :=
                 <[new_id := {| full_name := default "Usuário" meta_full_name;
                               profile_created_at := now |}]> (profiles d);
               categories := categories d; products := products d;
               stock_movements := stock_movements d |}
  | vs => rolled_back vs
  end.

Definition insert_into_auth_users (now : timestamptz) (new_id : uuid)
    (meta_full_name : option string) (d : db) : outcome db :=
  match violated (bool_decide (new_id ∉ auth_users d))
                 (unique_violation "id") with
  | [] => handle_new_user now new_id meta_full_name
            {| auth_users := {[new_id]} ∪ auth_users d;
               profiles := profiles d; categories := categories d;
               products := products d;
               stock_movements := stock_movements d |}
  | vs => rolled_back vs
  end.

(** ** Statements and runs *)

Inductive statement :=
| sign_up (new_id : uuid) (meta_full_name : option string)
| insert_category (new_id : uuid) (nm : string) (descr : option string)
| delete_category (k : uuid)
| insert_product (new_id : uuid) (r : product_insert)
| update_product (k : uuid) (u : product_update)
| delete_product (k : uuid)
| insert_movement (new_id : uuid) (r : movement_insert)
| update_movement (k : uuid) (set : stock_movement → stock_movement)
| delete_movement (k : uuid).

(** A request: who sends it ([auth.uid()]), when, and the statement. *)
Record request := {
  req_uid : option uuid;
  req_now : timestamptz;
  req_statement : statement
}.

Definition execute (r : request) (d : db) : outcome db :=
  let uid := req_uid r in
  let now := req_now r in
  match req_statement r with
  | sign_up new_id fn => insert_into_auth_users now new_id fn d
  | insert_category new_id nm descr =>
      insert_into_categories uid now new_id nm descr d
  | delete_category k => delete_from_categories uid now k d
  | insert_product new_id r => insert_into_products uid now new_id r d
  | update_product k u => update_products uid now k u d
  | delete_product k => delete_from_products uid k d
  | insert_movement new_id r => insert_into_stock_movements uid now new_id r d
  | update_movement k set => update_stock_movements uid k set d
  | delete_movement k => delete_from_stock_movements uid k d
  end.

Definition step (d : db) (r : request) : db := state_after d (execute r d).

(** The database after a list of requests, each in its own transaction. *)
Definition run (d : db) (rs : list request) : db := foldl step d rs.

(** ** The pages *)

(** A JavaScript number as the forms produce it: the number inputs step by
    [0.01], so a value is a count of hundredths, or [NaN] when the text
    does not parse.  [parseFloat] itself is the platform's and is taken as
    an argument by the handlers. *)
Inductive number := NaN | Num (hundredths : Z).

(** [quantity <= 0]: any comparison with [NaN] is false. *)
Definition number_le_zero (n : number) : bool :=
  match n with
  | NaN => false
  | Num z => bool_decide (z ≤ 0)%Z
  end.

(** [JSON.stringify] writes [NaN] as [null]. *)
Definition number_to_json (n : number) : option Z :=
  match n with
  | NaN => None
  | Num z => Some z
  end.

(** [s || null] on a string. *)
Definition or_null (s : string) : option string :=
  if bool_decide (s = "") then None else Some s.

Inductive toast :=
| toast_error (message : string)
| toast_success (message : string).

(** [SELECT ... FROM products] as a caller sees it. *)
Definition select_products (session : option uuid) (d : db)
    : list (uuid * product) :=
  filter (λ kp, permitted t_products SELECT session (key_columns kp.1) = true)
         (map_to_list (products d)).

Definition low_stock (p : product) : Prop :=
  (current_quantity p ≤ minimum_quantity p)%Z.

#[global] Instance low_stock_dec p : Decision (low_stock p).
Proof. unfold low_stock. apply _. Defined.

Module Stock.

Record formData := {
  form_product_id : string;
  form_movement_type : string;
  form_quantity : string;
  form_notes : string
}.

(** [userId] is the component's state (set from the session by
    [checkAuth]); [session] is the identity the request carries. *)
Definition handleSubmit (parseFloat : string → number)
    (session : option uuid) (userId : string) (now : timestamptz)
    (new_id : uuid) (f : formData) (d : db) : toast * db :=
  if bool_decide (form_product_id f = "")
     || bool_decide (form_quantity f = "") then
    (toast_error "Preencha todos os campos obrigatórios", d)
  else
    let quantity := parseFloat (form_quantity f) in
    if number_le_zero quantity then
      (toast_error "A quantidade deve ser maior que zero", d)
    else
      match insert_into_stock_movements session now new_id
              {| new_product_id := form_product_id f;
                 new_movement_type := form_movement_type f;
                 new_quantity := number_to_json quantity;
                 new_notes := or_null (form_notes f);
                 new_responsible_user_id := userId |} d with
      | rolled_back _ => (toast_error "Erro ao registrar movimentação", d)
      | committed d' =>
          (toast_success "Movimentação registrada com sucesso!", d')
      end.

Definition getLowStockProducts (products : list product) : list product :=
  filter low_stock products.

(** [const isLowStock = ...] in the products table of the page. *)
Definition isLowStock (product : product) : bool :=
  bool_decide (current_quantity product ≤ minimum_quantity product)%Z.

(** [.order("created_at", { ascending: false })].  Rows created at the
    same instant come in the order the sort leaves them; the query does
    not fix it either. *)
Definition newer_first (a b : stock_movement) : Prop :=
  (movement_created_at b ≤ movement_created_at a)%Z.

#[global] Instance newer_first_dec a b : Decision (newer_first a b).
Proof. unfold newer_first. apply _. Defined.

(** A row of the history dialog. *)
Record movement_view := {
  view_row : stock_movement;
  view_products : option (string * string);   (* [products (name, unit)] *)
  responsible_name : string
}.

Definition movementsData (session : option uuid) (d : db)
    : list stock_movement :=
  take 50
    (merge_sort newer_first
       (filter (λ m, permitted t_stock_movements SELECT session
                       (stock_movement_columns m) = true)
               (stock_movements d))).

(** [profiles ... .select("id, full_name").in("id", userIds)], then
    [new Map(...)]. *)
Definition profileMap (session : option uuid) (userIds : list uuid)
    (d : db) : gmap uuid string :=
  full_name <$>
    filter (λ kp, kp.1 ∈ userIds
                  ∧ permitted t_profiles SELECT session
                      (key_columns kp.1) = true)
           (profiles d).

Definition embedded_product (session : option uuid) (d : db)
    (m : stock_movement) : option (string * string) :=
  if permitted t_products SELECT session (key_columns (product_id m))
  then (λ p, (name p, product_unit p)) <$> products d !! product_id m
  else None.

(** [profileMap.get(id) || "Usuário"]: an empty name is falsy too. *)
Definition name_or_default (o : option string) : string :=
  match o with
  | Some n => if bool_decide (n = "") then "Usuário" else n
  | None => "Usuário"
  end.

Definition loadMovements (session : option uuid) (d : db)
    : list movement_view :=
  let rows := movementsData session d in
  let userIds := remove_dups (responsible_user_id <$> rows) in
  let pm := profileMap session userIds d in
  (λ m, {| view_row := m;
           view_products := embedded_product session d m;
           responsible_name :=
             name_or_default (pm !! responsible_user_id m) |})
    <$> rows.

(** [checkAuth]: where the page navigates, if anywhere, and the [userId]
    state afterwards. *)
Definition checkAuth (session : option uuid) (userId : string)
    : option string * string :=
  match session with
  | None => (Some "/auth", userId)
  | Some id => (None, id)
  end.

End Stock.

Module Dashboard.

(** [products?.filter(...).length || 0] *)
Definition lowStockProducts (products : option (list product)) : nat :=
  match products with
  | Some ps => length (filter low_stock ps)
  | None => 0
  end.

Record DashboardStats := {
  totalProducts : nat;
  lowStockProductsCount : nat;
  totalEntries : nat;
  totalExits : nat
}.

Definition count_movements (session : option uuid) (ty : string) (d : db)
    : nat :=
  length
    (filter (λ m, permitted t_stock_movements SELECT session
                    (stock_movement_columns m) = true
                  ∧ movement_type m = ty)
            (stock_movements d)).

Definition loadDashboardData (session : option uuid) (d : db)
    : DashboardStats :=
  {| totalProducts := length (select_products session d);
     lowStockProductsCount :=
       lowStockProducts (Some (snd <$> select_products session d));
     totalEntries := count_movements session "entrada" d;
     totalExits := count_movements session "saida" d |}.

(** [profiles ... .select("full_name").eq("id", id).single()] *)
Definition select_profile (session : option uuid) (id : uuid) (d : db)
    : option profile :=
  if permitted t_profiles SELECT session (key_columns id)
  then profiles d !! id else None.

(** [checkAuth]: where the page navigates, if anywhere, and the [userName]
    state afterwards. *)
Definition checkAuth (session : option uuid) (userName : string) (d : db)
    : option string * string :=
  match session with
  | None => (Some "/auth", userName)
  | Some id =>
      match select_profile session id d with
      | Some profile => (None, full_name profile)
      | None => (None, userName)
      end
  end.

End Dashboard.

Module Products.

Record formData := {
  form_name : string;
  form_description : string;
  form_category_id : string;
  form_unit : string;
  form_minimum_quantity : string
}.

Definition json_number (n : number) : json_column Z :=
  match number_to_json n with
  | None => json_null
  | Some z => json_value z
  end.

(** [editingProduct] is the product being edited, if any. *)
Definition handleSubmit (parseFloat : string → number)
    (session : option uuid) (editingProduct : option uuid)
    (now : timestamptz) (new_id : uuid) (f : formData) (d : db)
    : toast * db :=
  if bool_decide (form_name f = "") || bool_decide (form_unit f = "") then
    (toast_error "Preencha todos os campos obrigatórios", d)
  else
    let minimum_quantity := parseFloat (form_minimum_quantity f) in
    match editingProduct with
    | Some k =>
        match update_products session now k
                {| upd_name := Some (form_name f);
                   upd_description := Some (or_null (form_description f));
                   upd_category_id := Some (or_null (form_category_id f));
                   upd_unit := Some (form_unit f);
                   upd_current_quantity := None;
                   upd_minimum_quantity :=
                     Some (number_to_json minimum_quantity) |} d with
        | rolled_back _ => (toast_error "Erro ao atualizar produto", d)
        | committed d' =>
            (toast_success "Produto atualizado com sucesso!", d')
        end
    | None =>
        match insert_into_products session now new_id
                {| ins_name := form_name f;
                   ins_description := or_null (form_description f);
                   ins_category_id := or_null (form_category_id f);
                   ins_unit := form_unit f;
                   ins_current_quantity := json_value 0%Z;
                   ins_minimum_quantity := json_number minimum_quantity |}
                d with
        | rolled_back _ => (toast_error "Erro ao criar produto", d)
        | committed d' => (toast_success "Produto criado com sucesso!", d')
        end
    end.

(** [confirmed] is the answer to the [confirm(...)] dialog. *)
Definition handleDelete (session : option uuid) (confirmed : bool)
    (id : uuid) (d : db) : option toast * db :=
  if negb confirmed then (None, d)
  else
    match delete_from_products session id d with
    | rolled_back _ => (Some (toast_error "Erro ao excluir produto"), d)
    | committed d' =>
        (Some (toast_success "Produto excluído com sucesso!"), d')
    end.

(** [handleEdit]: the form the edit dialog opens with.  [toString] is
    [Number.prototype.toString], the platform's. *)
Definition handleEdit (toString : number → string) (product : product)
    : formData :=
  {| form_name := name product;
     form_description := default "" (description product);
     form_category_id := default "" (category_id product);
     form_unit := product_unit product;
     form_minimum_quantity := toString (Num (minimum_quantity product)) |}.

(** [s.includes(t)]: [t] occurs in [s]. *)
Fixpoint includes (s t : string) : bool :=
  if String.prefix t s then true
  else match s with
       | EmptyString => false
       | String _ s' => includes s' t
       end.

(** [filteredProducts]; [toLowerCase] is the platform's. *)
Definition filteredProducts (toLowerCase : string → string)
    (searchTerm : string) (products : list product) : list product :=
  filter (λ product,
            includes (toLowerCase (name product)) (toLowerCase searchTerm)
            = true)
         products.

End Products.

Module Index.

(** [checkAuth]: the route the landing page navigates to. *)
Definition checkAuth (session : option uuid) : string :=
  match session with
  | Some _ => "/dashboard"
  | None => "/auth"
  end.

End Index.

(** ** Derived notions used in the statements *)

(** The balance the trigger function writes, as a function of the movement
    and of the balance it reads. *)
Definition written_balance (ty : string) (q Q : Z) : Z :=
  if bool_decide (ty = "entrada") then (Q + q)%Z
  else if bool_decide (ty = "saida") then Z.max (Q - q) 0
  else Q.

(** Stored products rows satisfy their column types and checks. *)
Definition constraints_hold (d : db) : Prop :=
  map_Forall (λ _ p, products_check p = []) (products d).

(** The error kinds of the specification.  The code has no such names: a
    statement that is rolled back carries the rules it broke.
    [spec_error_kind] reads a broken rule the way the specification
    classifies failures: a row the caller may not write is a permission
    failure, a value a column refuses is an invalid argument, a reference
    to a row that is not there is not-found, a key already taken is a
    conflict. *)
Inductive error_kind :=
| InvalidArgument | NotFound | PermissionDenied | ConflictOrTransient.

Definition spec_error_kind (v : violation) : error_kind :=
  match v with
  | row_level_security _ => PermissionDenied
  | not_null _ | numeric_field_overflow _ | check_constraint _ =>
      InvalidArgument
  | foreign_key _ => NotFound
  | unique_violation _ => ConflictOrTransient
  end.

(** A sequence of movements, each submitted in its own transaction on the
    database the previous one left.  [submit_all] is defined when every
    one of them is accepted. *)
Record submission := {
  sub_uid : option uuid;
  sub_now : timestamptz;
  sub_id : uuid;
  sub_row : movement_insert
}.

Definition submit (d : db) (s : submission) : outcome db :=
  insert_into_stock_movements (sub_uid s) (sub_now s) (sub_id s) (sub_row s) d.

Fixpoint submit_all (d : db) (ss : list submission) : option db :=
  match ss with
  | [] => Some d
  | s :: ss =>
      match submit d s with
      | committed d' => submit_all d' ss
      | rolled_back _ => None
      end
  end.

(** The balance rule in the words of the specification: a movement is an
    entry or an exit; an entry of [q] takes the balance [Q] to [Q + q], an
    exit of [q] takes it to [max (Q - q) 0].  [kind_of_type] reads the
    stored [movement_type]. *)
Inductive movement_kind := entry | exit.

Definition kind_of_type (ty : string) : option movement_kind :=
  if bool_decide (ty = "entrada") then Some entry
  else if bool_decide (ty = "saida") then Some exit
  else None.

Definition spec_movement (m : stock_movement)
    : option (movement_kind * Z) :=
  (λ k, (k, quantity m)) <$> kind_of_type (movement_type m).

Definition spec_balance_step (Q : Z) (m : movement_kind * Z) : Z :=
  match m.1 with
  | entry => (Q + m.2)%Z
  | exit => Z.max (Q - m.2) 0
  end.

(** The rows of a ledger that name product [k], in ledger order. *)
Definition movements_of (k : uuid) (rows : list stock_movement)
    : list stock_movement :=
  filter (λ m, product_id m = k) rows.

(** The name the history shows for a movement, read off the tables: the
    responsible user's own [full_name] when the caller is that user and
    the name is not empty, the placeholder otherwise. *)
Definition shown_name (session : option uuid) (d : db) (m : stock_movement)
    : string :=
  match profiles d !! responsible_user_id m with
  | Some pr =>
      if bool_decide (session = Some (responsible_user_id m)
                      ∧ full_name pr ≠ "")
      then full_name pr else "Usuário"
  | None => "Usuário"
  end.

(** What a user of the pages can do. *)
Inductive action :=
| submit_product (session : option uuid) (editingProduct : option uuid)
    (now : timestamptz) (new_id : uuid) (f : Products.formData)
| delete_product_row (session : option uuid) (confirmed : bool) (id : uuid)
| submit_movement (session : option uuid) (userId : string)
    (now : timestamptz) (new_id : uuid) (f : Stock.formData)
| create_category (session : option uuid) (now : timestamptz)
    (new_id : uuid) (nm : string) (descr : option string)
| remove_category (session : option uuid) (now : timestamptz) (k : uuid).

Definition perform (parseFloat : string → number) (d : db) (a : action)
    : db :=
  match a with
  | submit_product session editing now new_id f =>
      (Products.handleSubmit parseFloat session editing now new_id f d).2
  | delete_product_row session confirmed id =>
      (Products.handleDelete session confirmed id d).2
  | submit_movement session userId now new_id f =>
      (Stock.handleSubmit parseFloat session userId now new_id f d).2
  | create_category session now new_id nm descr =>
      state_after d (insert_into_categories session now new_id nm descr d)
  | remove_category session now k =>
      state_after d (delete_from_categories session now k d)
  end.

Definition perform_all (parseFloat : string → number) (d : db)
    (acts : list action) : db :=
  foldl (perform parseFloat) d acts.

(** The action is an entry movement submitted for product [k]. *)
Definition entry_for (k : uuid) (a : action) : Prop :=
  match a with
  | submit_movement _ _ _ _ f =>
      Stock.form_product_id f = k ∧ Stock.form_movement_type f = "entrada"
  | _ => False
  end.

(** ** A small database

    Two registered users, one category, one product at 5.00 units with
    a minimum of 10.00, and the entry of 5.00 that the second user
    recorded. *)
Definition martelo : product :=
  {| name := "Martelo"; description := None;
     category_id := Some "c1"; product_unit := "unidade";
     current_quantity := 500; minimum_quantity := 1000;
     created_at := 1; updated_at := 1 |}.

Definition first_entry : stock_movement :=
  {| movement_id := "m0"; product_id := "p1";
     movement_type := "entrada"; quantity := 500;
     responsible_user_id := "bruno"; notes := None;
     movement_created_at := 2 |}.

Definition example_db : db :=
  {| auth_users := {["ana"; "bruno"]};
     profiles :=
       {[ "ana" := {| full_name := "Ana"; profile_created_at := 0 |};
          "bruno" := {| full_name := "Bruno"; profile_created_at := 0 |} ]};
     categories :=
       {[ "c1" := {| category_name := "Ferramentas Manuais";
                     category_description := None;
                     category_created_at := 0 |} ]};
     products := {[ "p1" := martelo ]};
     stock_movements := [first_entry] |}.

(** An exit of 8.00 by the first user. *)
Definition example_exit : movement_insert :=
  {| new_product_id := "p1"; new_movement_type := "saida";
     new_quantity := Some 800%Z; new_notes := None;
     new_responsible_user_id := "ana" |}.

(** An entry of 15.00 at instant 5, then an exit of 30.00 at instant 6,
    both by the first user. *)
Definition example_submissions : list submission :=
  [ {| sub_uid := Some "ana"; sub_now := 5; sub_id := "m1";
       sub_row := {| new_product_id := "p1"; new_movement_type := "entrada";
                     new_quantity := Some 1500%Z; new_notes := None;
                     new_responsible_user_id := "ana" |} |};
    {| sub_uid := Some "ana"; sub_now := 6; sub_id := "m2";
       sub_row := {| new_product_id := "p1"; new_movement_type := "saida";
                     new_quantity := Some 3000%Z; new_notes := None;
                     new_responsible_user_id := "ana" |} |} ].

Definition example_db_after_submissions : db :=
  {| auth_users := auth_users example_db;
     profiles := profiles example_db;
     categories := categories example_db;
     products :=
       {[ "p1" := with_updated_at 6 (with_current_quantity 0 martelo) ]};
     stock_movements :=
       [ first_entry;
         {| movement_id := "m1"; product_id := "p1";
            movement_type := "entrada"; quantity := 1500;
            responsible_user_id := "ana"; notes := None;
            movement_created_at := 5 |};
         {| movement_id := "m2"; product_id := "p1";
            movement_type := "saida"; quantity := 3000;
            responsible_user_id := "ana"; notes := None;
            movement_created_at := 6 |} ] |}.

(** A [parseFloat] on the texts the examples type into the forms. *)
Definition example_parseFloat (s : string) : number :=
  if bool_decide (s = "15") then Num 1500
  else if bool_decide (s = "10") then Num 1000
  else if bool_decide (s = "-1") then Num (-100)
  else NaN.

Definition example_product_form : Products.formData :=
  {| Products.form_name := "Alicate"; Products.form_description := "";
     Products.form_category_id := "c1"; Products.form_unit := "unidade";
     Products.form_minimum_quantity := "10" |}.

Definition alicate : product :=
  {| name := "Alicate"; description := None;
     category_id := Some "c1"; product_unit := "unidade";
     current_quantity := 0; minimum_quantity := 1000;
     created_at := 7; updated_at := 7 |}.

Definition example_db_with_alicate : db :=
  with_products (<["p2" := alicate]> (products example_db)) example_db.

Definition example_stock_form : Stock.formData :=
  {| Stock.form_product_id := "p2"; Stock.form_movement_type := "entrada";
     Stock.form_quantity := "15"; Stock.form_notes := "" |}.

Definition example_requests : list request :=
  [ {| req_uid := Some "ana"; req_now := 5;
       req_statement := delete_movement "m0" |};
    {| req_uid := Some "bruno"; req_now := 6;
       req_statement :=
         update_movement "m0"
           (λ m, {| movement_id := movement_id m;
                    product_id := product_id m;
                    movement_type := movement_type m; quantity := 1;
                    responsible_user_id := responsible_user_id m;
                    notes := notes m;
                    movement_created_at := movement_created_at m |}) |};
    {| req_uid := Some "ana"; req_now := 7;
       req_statement := insert_movement "m1" example_exit |};
    {| req_uid := Some "ana"; req_now := 8;
       req_statement := delete_category "c1" |} ].

(** A form asking for an exit of -1. *)
Definition example_refused_form : Stock.formData :=
  {| Stock.form_product_id := "p1"; Stock.form_movement_type := "saida";
     Stock.form_quantity := "-1"; Stock.form_notes := "" |}.

(** The example database after the trigger function has run for an exit
    of 30.00 at instant 6. *)
Definition example_db_after_step : db :=
  with_products
    {[ "p1" := with_updated_at 6 (with_current_quantity 0 martelo) ]}
    example_db.

(** ** Invariants of the stored rows *)

(** Every reference of a stored row resolves: a movement names a product
    of the table and a registered identity, a product's category is in
    the table, a profile belongs to a registered identity. *)
Definition references_hold (d : db) : Prop :=
  Forall (λ m, is_Some (products d !! product_id m)
               ∧ responsible_user_id m ∈ auth_users d)
         (stock_movements d)
  ∧ map_Forall (λ _ p, ∀ c, category_id p = Some c →
                            is_Some (categories d !! c))
               (products d)
  ∧ dom (profiles d) ⊆ auth_users d.

(** The rows of the ledger satisfy the column type and the checks of
    their table, and no two share an [id]. *)
Definition ledger_rows_hold (d : db) : Prop :=
  Forall (λ m, (0 < quantity m)%Z
               ∧ fits_numeric_10_2 (quantity m) = true
               ∧ movement_type m ∈ ["entrada"; "saida"])
         (stock_movements d)
  ∧ NoDup (movement_id <$> stock_movements d).

(** The balance the ledger gives product [k]: the clamped fold of its
    rows, from zero. *)
Definition ledger_balance (k : uuid) (rows : list stock_movement) : Z :=
  foldl spec_balance_step 0%Z (omap spec_movement (movements_of k rows)).
Arguments ledger_balance : simpl never.

(** Every movement names a product of the table, and every product holds
    the balance the ledger gives it. *)
Definition balances_match_ledger (d : db) : Prop :=
  Forall (λ m, is_Some (products d !! product_id m)) (stock_movements d)
  ∧ map_Forall (λ k p, current_quantity p
                       = ledger_balance k (stock_movements d))
               (products d).


(** No two categories share a name. *)
Definition category_names_unique (d : db) : Prop :=
  ∀ i j ci cj,
    categories d !! i = Some ci → categories d !! j = Some cj →
    category_name ci = category_name cj → i = j.


(** ** More of the small database *)

(** The example database after the exit of 8.00 has been recorded at
    instant 5 under the identifier "m1". *)
Definition example_db_after_exit : db :=
  {| auth_users := auth_users example_db;
     profiles := profiles example_db;
     categories := categories example_db;
     products :=
       {[ "p1" := with_updated_at 5 (with_current_quantity 0 martelo) ]};
     stock_movements :=
       [ first_entry; movement_row 5 "m1" example_exit 800 ] |}.

(** The same database with the product one unit short of what the column
    can hold, and an entry of 15.00 for it. *)
Definition example_db_full : db :=
  with_products
    {[ "p1" := with_current_quantity 9999999900 martelo ]} example_db.

Definition example_entry : movement_insert :=
  {| new_product_id := "p1"; new_movement_type := "entrada";
     new_quantity := Some 1500%Z; new_notes := None;
     new_responsible_user_id := "ana" |}.

(** A request without a session. *)
Definition example_anonymous_request : request :=
  {| req_uid := None; req_now := 5; req_statement := delete_product "p1" |}.

(** A user registers a product, records an entry of 15.00 for it, and
    deletes the first product. *)
Definition example_actions : list action :=
  [ submit_product (Some "ana") None 7 "p2" example_product_form;
    submit_movement (Some "ana") "ana" 8 "m1" example_stock_form;
    delete_product_row (Some "ana") true "p1" ].

(** A [toString] on the numbers the examples show in the forms. *)
Definition example_toString (n : number) : string :=
  match n with
  | Num 1000 => "10"
  | Num 1500 => "15"
  | _ => "NaN"
  end.


Definition example_orphan_product_form : Products.formData :=
  {| Products.form_name := "Alicate"; Products.form_description := "";
     Products.form_category_id := "c9"; Products.form_unit := "unidade";
     Products.form_minimum_quantity := "10" |}.

(** The example database after a third identity has registered at
    instant 3, giving the name "Carla". *)
Definition example_db_with_carla : db :=
  {| auth_users := {["carla"]} ∪ auth_users example_db;
     profiles :=
       <["carla" := {| full_name := "Carla"; profile_created_at := 3 |}]>
         (profiles example_db);
     categories := categories example_db;
     products := products example_db;
     stock_movements := stock_movements example_db |}.



(** * Properties *)

(** ** Policies *)

Lemma permitted_insert_movement uid new_id r :
  permitted t_stock_movements INSERT uid (movement_insert_columns new_id r)
  = bool_decide (uid = Some (new_responsible_user_id r)).
Proof.
  destruct uid as [u|]; cbn; [|done].
  rewrite orb_false_r. repeat case_bool_decide; naive_solver.
Qed.

Lemma permitted_update_movement c uid cols :
  c = UPDATE ∨ c = DELETE → permitted t_stock_movements c uid cols = false.
Proof. intros [-> | ->]; reflexivity. Qed.

Lemma permitted_products c uid cols :
  permitted t_products c uid cols = authenticated uid.
Proof. by destruct c, uid. Qed.
Lemma permitted_categories c uid cols :
  permitted t_categories c uid cols = authenticated uid.
Proof. by destruct c, uid. Qed.
Lemma permitted_select_movement uid cols :
  permitted t_stock_movements SELECT uid cols = authenticated uid.
Proof. by destruct uid. Qed.
Lemma permitted_select_profile uid k :
  permitted t_profiles SELECT uid (key_columns k) = bool_decide (uid = Some k).
Proof.
  destruct uid as [u|]; cbn; [|done].
  repeat case_bool_decide; naive_solver.
Qed.

Lemma violated_nil b v : violated b v = [] ↔ b = true.
Proof. by destruct b. Qed.

Lemma violated_elem b v w : w ∈ violated b v ↔ b = false ∧ w = v.
Proof.
  destruct b; cbn.
  - split; [by intros ?%elem_of_nil | by intros [? _]].
  - rewrite list_elem_of_singleton. naive_solver.
Qed.

Lemma products_check_nil p :
  products_check p = [] ↔
  fits_numeric_10_2 (current_quantity p) = true ∧
  fits_numeric_10_2 (minimum_quantity p) = true ∧
  (0 ≤ current_quantity p)%Z ∧ (0 ≤ minimum_quantity p)%Z.
Proof.
  unfold products_check. rewrite !app_nil, !violated_nil, !bool_decide_eq_true.
  tauto.
Qed.

Lemma stock_movements_violations_nil d uid new_id r :
  stock_movements_violations d uid new_id r = [] ↔
  uid = Some (new_responsible_user_id r)
  ∧ (∃ q, new_quantity r = Some q ∧ fits_numeric_10_2 q = true ∧ (0 < q)%Z)
  ∧ new_movement_type r ∈ ["entrada"; "saida"]
  ∧ is_Some (products d !! new_product_id r)
  ∧ new_responsible_user_id r ∈ auth_users d
  ∧ new_id ∉ movement_id <$> stock_movements d.
Proof.
  unfold stock_movements_violations, quantity_violations.
  rewrite !app_nil, !violated_nil, permitted_insert_movement,
    !bool_decide_eq_true.
  destruct (new_quantity r) as [q|].
  - rewrite !app_nil, !violated_nil, bool_decide_eq_true. naive_solver.
  - naive_solver.
Qed.

Lemma update_products_where_id_committed now k set d d' :
  update_products_where_id now k set d = committed d' →
  match products d !! k with
  | None => d' = d
  | Some old =>
      products_check (with_updated_at now (set old)) = [] ∧
      d' = with_products
             (<[k := with_updated_at now (set old)]> (products d)) d
  end.
Proof.
  unfold update_products_where_id, update_updated_at_column.
  destruct (products d !! k) as [old|]; [|by intros [= <-]].
  destruct (products_check _) eqn:E; [|done]. by intros [= <-].
Qed.

Lemma update_product_quantity_committed now NEW d d' :
  update_product_quantity now NEW d = committed d' →
  movement_type NEW ∈ ["entrada"; "saida"] →
  match products d !! product_id NEW with
  | None => d' = d
  | Some old =>
      let p' := with_updated_at now
                  (with_current_quantity
                     (written_balance (movement_type NEW) (quantity NEW)
                        (current_quantity old)) old) in
      products_check p' = [] ∧
      d' = with_products (<[product_id NEW := p']> (products d)) d
  end.
Proof.
  unfold update_product_quantity, written_balance. intros H Hty.
  repeat case_bool_decide.
  - by apply update_products_where_id_committed in H.
  - by apply update_products_where_id_committed in H.
  - set_solver.
Qed.

Lemma insert_into_stock_movements_committed uid now new_id r d d' :
  insert_into_stock_movements uid now new_id r d = committed d' →
  ∃ q old,
    new_quantity r = Some q ∧ (0 < q)%Z ∧ fits_numeric_10_2 q = true
    ∧ uid = Some (new_responsible_user_id r)
    ∧ new_movement_type r ∈ ["entrada"; "saida"]
    ∧ products d !! new_product_id r = Some old
    ∧ new_responsible_user_id r ∈ auth_users d
    ∧ (new_id ∉ movement_id <$> stock_movements d)
    ∧ (let p' := with_updated_at now
                   (with_current_quantity
                      (written_balance (new_movement_type r) q
                         (current_quantity old)) old) in
       products_check p' = []
       ∧ d' = with_products (<[new_product_id r := p']> (products d))
                (with_stock_movements
                   (stock_movements d ++ [movement_row now new_id r q]) d)).
Proof.
  unfold insert_into_stock_movements. intros H.
  destruct (new_quantity r) as [q|] eqn:Hq; [|done].
  destruct (stock_movements_violations d uid new_id r) eqn:Hv; [|done].
  apply stock_movements_violations_nil in Hv
    as (Huid & (q' & Hq' & Hfit & Hpos) & Hty & [old Hold] & Hfk & Hid).
  rewrite Hq in Hq'. injection Hq' as <-.
  apply update_product_quantity_committed in H; [|done].
  cbn in H. rewrite Hold in H. destruct H as [Hc ->].
  exists q, old. done.
Qed.

(** ** Movements *)

Lemma written_balance_saida q Q :
  written_balance "saida" q Q = Z.max (Q - q) 0.
Proof. reflexivity. Qed.

Lemma insert_into_stock_movements_accepts uid now new_id r d q old :
  new_quantity r = Some q → (0 < q)%Z → fits_numeric_10_2 q = true →
  uid = Some (new_responsible_user_id r) →
  new_movement_type r ∈ ["entrada"; "saida"] →
  products d !! new_product_id r = Some old →
  new_responsible_user_id r ∈ auth_users d →
  new_id ∉ (movement_id <$> stock_movements d) →
  let p' := with_updated_at now
              (with_current_quantity
                 (written_balance (new_movement_type r) q
                    (current_quantity old)) old) in
  products_check p' = [] →
  insert_into_stock_movements uid now new_id r d
  = committed
      (with_products (<[new_product_id r := p']> (products d))
         (with_stock_movements
            (stock_movements d ++ [movement_row now new_id r q]) d)).
Proof.
  intros Hq Hpos Hfit Huid Hty Hold Hfk Hid p' Hc.
  unfold insert_into_stock_movements. rewrite Hq.
  assert (stock_movements_violations d uid new_id r = []) as ->.
  { apply stock_movements_violations_nil. naive_solver. }
  unfold update_product_quantity, update_products_where_id,
    update_updated_at_column. cbn.
  unfold written_balance in p'. subst p'.
  repeat case_bool_decide; rewrite ?Hold; cbn.
  - by rewrite Hc.
  - by rewrite Hc.
  - set_solver.
Qed.

(** C2.  An exit whose quantity exceeds the balance is not turned away for
    that: when the proposed row is otherwise admissible (the caller is the
    responsible user and a registered identity, the product exists, the
    quantity is a [DECIMAL(10,2)] value, the identifier drawn is fresh) the
    statement commits, the row is appended to the ledger, and the product's
    balance afterwards is exactly zero.  With balance 5.00 and an exit of
    8.00 the balance becomes 0, not -3.00. *)
Theorem exit_beyond_balance_clamps uid now new_id r d q old :
  products d !! new_product_id r = Some old →
  products_check old = [] →
  new_movement_type r = "saida" →
  new_quantity r = Some q →
  fits_numeric_10_2 q = true →
  (current_quantity old < q)%Z →
  uid = Some (new_responsible_user_id r) →
  new_responsible_user_id r ∈ auth_users d →
  new_id ∉ (movement_id <$> stock_movements d) →
  ∃ d' p',
    insert_into_stock_movements uid now new_id r d = committed d'
    ∧ stock_movements d' = stock_movements d ++ [movement_row now new_id r q]
    ∧ products d' !! new_product_id r = Some p'
    ∧ current_quantity p' = 0%Z.
Proof.
  intros Hold Hc Hty Hq Hfit Hlt Huid Hfk Hid.
  apply products_check_nil in Hc as (Hf1 & Hf2 & Hcq & Hmq).
  eexists _, _. split; [|split; [|split]].
  - eapply insert_into_stock_movements_accepts; try done.
    + lia.
    + rewrite Hty. set_solver.
    + apply products_check_nil. rewrite Hty, written_balance_saida. cbn.
      rewrite Z.max_r by lia. done.
  - done.
  - cbn. apply lookup_insert_eq.
  - cbn. rewrite Hty, written_balance_saida. lia.
Qed.

Lemma exit_beyond_balance_clamps_witness :
  ∃ d' p',
    insert_into_stock_movements (Some "ana") 5 "m1" example_exit example_db
    = committed d'
    ∧ stock_movements d'
      = stock_movements example_db ++ [movement_row 5 "m1" example_exit 800]
    ∧ products d' !! "p1" = Some p'
    ∧ current_quantity p' = 0%Z.
Proof.
  apply (exit_beyond_balance_clamps (Some "ana") 5 "m1" example_exit
           example_db 800 martelo).
  - reflexivity.
  - reflexivity.
  - reflexivity.
  - reflexivity.
  - reflexivity.
  - cbn. lia.
  - reflexivity.
  - vm_compute. reflexivity.
  - cbn. rewrite list_elem_of_singleton. discriminate.
Defined.



Lemma quantity_not_positive_violation d uid new_id r q :
  new_quantity r = Some q → (q ≤ 0)%Z →
  check_constraint "quantity > 0" ∈ stock_movements_violations d uid new_id r.
Proof.
  intros Hq Hle. unfold stock_movements_violations, quantity_violations.
  rewrite Hq, !elem_of_app, !violated_elem, bool_decide_eq_false.
  right; left; right. split; [lia | done].
Qed.

Lemma insert_into_stock_movements_violation uid now new_id r d v :
  v ∈ stock_movements_violations d uid new_id r →
  insert_into_stock_movements uid now new_id r d
  = rolled_back (stock_movements_violations d uid new_id r).
Proof.
  intros Hv. unfold insert_into_stock_movements.
  destruct (new_quantity r); [|done].
  destruct (stock_movements_violations d uid new_id r); [|done].
  by apply elem_of_nil in Hv.
Qed.

(** C3.  A movement with a quantity of zero or less is turned away, whatever
    its type and whoever sends it.  At the table: the insert is rolled
    back, the check [quantity > 0] is among the rules it breaks (an invalid
    argument), and the database after the statement is the database before
    it, so no row was stored and no balance moved.  At the stock page: the
    form is answered with one of the two validation messages and no
    statement is sent. *)
Theorem non_positive_quantity_rejected
    parseFloat uid userId now new_id pid ty nts resp f d q :
  (q ≤ 0)%Z →
  let r := {| new_product_id := pid; new_movement_type := ty;
              new_quantity := Some q; new_notes := nts;
              new_responsible_user_id := resp |} in
  (∃ vs,
     insert_into_stock_movements uid now new_id r d = rolled_back vs
     ∧ check_constraint "quantity > 0" ∈ vs
     ∧ spec_error_kind (check_constraint "quantity > 0") = InvalidArgument
     ∧ state_after d (insert_into_stock_movements uid now new_id r d) = d)
  ∧ (parseFloat (Stock.form_quantity f) = Num q →
     ∃ message,
       Stock.handleSubmit parseFloat uid userId now new_id f d
       = (toast_error message, d)
       ∧ message ∈ ["Preencha todos os campos obrigatórios";
                    "A quantidade deve ser maior que zero"]).
Proof.
  intros Hle r. split.
  - pose proof (quantity_not_positive_violation d uid new_id r q eq_refl Hle)
      as Hv.
    rewrite (insert_into_stock_movements_violation _ _ _ _ _ _ Hv).
    eexists. split; [done|]. split; [exact Hv|]. done.
  - intros Hq. unfold Stock.handleSubmit.
    destruct (_ || _).
    + eexists. split; [done | set_solver].
    + rewrite Hq. cbn. rewrite bool_decide_eq_true_2 by done.
      eexists. split; [done | set_solver].
Qed.

Lemma non_positive_quantity_rejected_witness :
  (∃ vs,
     insert_into_stock_movements (Some "ana") 5 "m1"
       {| new_product_id := "p1"; new_movement_type := "entrada";
          new_quantity := Some (-100)%Z; new_notes := None;
          new_responsible_user_id := "ana" |} example_db = rolled_back vs
     ∧ check_constraint "quantity > 0" ∈ vs
     ∧ spec_error_kind (check_constraint "quantity > 0") = InvalidArgument
     ∧ state_after example_db
         (insert_into_stock_movements (Some "ana") 5 "m1"
            {| new_product_id := "p1"; new_movement_type := "entrada";
               new_quantity := Some (-100)%Z; new_notes := None;
               new_responsible_user_id := "ana" |} example_db)
       = example_db)
  ∧ (example_parseFloat (Stock.form_quantity example_refused_form)
     = Num (-100) →
     ∃ message,
       Stock.handleSubmit example_parseFloat (Some "ana") "ana" 5 "m1"
         example_refused_form example_db
       = (toast_error message, example_db)
       ∧ message ∈ ["Preencha todos os campos obrigatórios";
                    "A quantidade deve ser maior que zero"]).
Proof.
  apply (non_positive_quantity_rejected example_parseFloat (Some "ana") "ana"
           5 "m1" "p1" "entrada" None "ana" example_refused_form example_db
           (-100)).
  lia.
Defined.

Lemma foreign_responsible_violation d uid new_id r :
  uid ≠ Some (new_responsible_user_id r) →
  row_level_security t_stock_movements
  ∈ stock_movements_violations d uid new_id r.
Proof.
  intros Hne. unfold stock_movements_violations.
  rewrite !elem_of_app, !violated_elem, permitted_insert_movement,
    bool_decide_eq_false. by left.
Qed.

(** C4.  A movement whose [responsible_user_id] is not the caller's own
    identity is rejected: the insert is rolled back, the row-level security
    rule of [stock_movements] is among the rules it breaks (a permission
    failure), the database is left as it was, and no database at all can
    be the committed result.  Read the other way round, an insert commits
    only when the responsible user is the caller.  The stock page, sending
    that user as [responsible_user_id] under another session, shows its
    error toast and changes nothing. *)
Theorem foreign_responsible_rejected
    parseFloat uid now new_id r f d :
  uid ≠ Some (new_responsible_user_id r) →
  (∃ vs,
     insert_into_stock_movements uid now new_id r d = rolled_back vs
     ∧ row_level_security t_stock_movements ∈ vs
     ∧ spec_error_kind (row_level_security t_stock_movements)
       = PermissionDenied
     ∧ state_after d (insert_into_stock_movements uid now new_id r d) = d)
  ∧ (∀ d', insert_into_stock_movements uid now new_id r d ≠ committed d')
  ∧ (∃ message,
       Stock.handleSubmit parseFloat uid (new_responsible_user_id r)
         now new_id f d
       = (toast_error message, d)).
Proof.
  intros Hne.
  pose proof (foreign_responsible_violation d uid new_id r Hne) as Hv.
  split; [|split].
  - rewrite (insert_into_stock_movements_violation _ _ _ _ _ _ Hv).
    eexists. split; [done|]. split; [exact Hv|]. done.
  - intros d'.
    by rewrite (insert_into_stock_movements_violation _ _ _ _ _ _ Hv).
  - unfold Stock.handleSubmit.
    destruct (_ || _); [by eexists|].
    destruct (number_le_zero _); [by eexists|].
    match goal with |- context [insert_into_stock_movements ?a ?b ?c ?r' ?e] =>
      rewrite (insert_into_stock_movements_violation a b c r' e
                 (row_level_security t_stock_movements)) end.
    + by eexists.
    + by apply foreign_responsible_violation.
Qed.

Lemma foreign_responsible_rejected_witness :
  (∃ vs,
     insert_into_stock_movements (Some "bruno") 5 "m1" example_exit example_db
     = rolled_back vs
     ∧ row_level_security t_stock_movements ∈ vs
     ∧ spec_error_kind (row_level_security t_stock_movements)
       = PermissionDenied
     ∧ state_after example_db
         (insert_into_stock_movements (Some "bruno") 5 "m1" example_exit
            example_db)
       = example_db)
  ∧ (∀ d', insert_into_stock_movements (Some "bruno") 5 "m1" example_exit
             example_db ≠ committed d')
  ∧ (∃ message,
       Stock.handleSubmit example_parseFloat (Some "bruno")
         (new_responsible_user_id example_exit) 5 "m1" example_stock_form
         example_db
       = (toast_error message, example_db)).
Proof.
  apply (foreign_responsible_rejected example_parseFloat (Some "bruno") 5
           "m1" example_exit example_stock_form example_db).
  discriminate.
Defined.

(** C8.  The quantity-maintenance step, whenever it commits, leaves the
    ledger, the categories, the profiles and the identities alone, leaves
    every product other than the movement's untouched, and on the
    movement's product keeps [name], [description], [category_id], the
    unit, [minimum_quantity] and [created_at]: only [current_quantity] and
    [updated_at] can differ.  It neither creates nor removes a product. *)
Theorem update_product_quantity_frame now NEW d d' :
  update_product_quantity now NEW d = committed d' →
  stock_movements d' = stock_movements d
  ∧ categories d' = categories d
  ∧ profiles d' = profiles d
  ∧ auth_users d' = auth_users d
  ∧ (∀ k, k ≠ product_id NEW → products d' !! k = products d !! k)
  ∧ match products d !! product_id NEW with
    | None => products d' !! product_id NEW = None
    | Some old =>
        ∃ p', products d' !! product_id NEW = Some p'
              ∧ name p' = name old
              ∧ description p' = description old
              ∧ category_id p' = category_id old
              ∧ product_unit p' = product_unit old
              ∧ minimum_quantity p' = minimum_quantity old
              ∧ created_at p' = created_at old
    end.
Proof.
  unfold update_product_quantity. intros H.
  assert (∀ set, update_products_where_id now (product_id NEW) set d
                 = committed d' →
          stock_movements d' = stock_movements d
          ∧ categories d' = categories d
          ∧ profiles d' = profiles d
          ∧ auth_users d' = auth_users d
          ∧ (∀ k, k ≠ product_id NEW → products d' !! k = products d !! k)
          ∧ match products d !! product_id NEW with
            | None => products d' !! product_id NEW = None
            | Some old =>
                ∃ p', products d' !! product_id NEW = Some p'
                      ∧ p' = with_updated_at now (set old)
            end) as Hupd.
  { intros set Hs. apply update_products_where_id_committed in Hs.
    destruct (products d !! product_id NEW) as [old|] eqn:Hold.
    - destruct Hs as [_ ->]. cbn. repeat split; try done.
      + intros k Hk. by apply lookup_insert_ne.
      + eexists. split; [apply lookup_insert_eq | done].
    - subst d'. by rewrite Hold. }
  repeat case_bool_decide.
  - apply Hupd in H as (? & ? & ? & ? & ? & Hp). repeat split; try done.
    destruct (products d !! product_id NEW); [|done].
    destruct Hp as (p' & ? & ->). by exists (with_updated_at now
      (with_current_quantity (current_quantity p + quantity NEW) p)).
  - apply Hupd in H as (? & ? & ? & ? & ? & Hp). repeat split; try done.
    destruct (products d !! product_id NEW); [|done].
    destruct Hp as (p' & ? & ->). by eexists (with_updated_at now
      (with_current_quantity _ p)).
  - injection H as <-. repeat split; try done.
    destruct (products d !! product_id NEW) as [old|]; [|done].
    by exists old.
Qed.

Lemma update_product_quantity_frame_witness :
  stock_movements example_db_after_step = stock_movements example_db
  ∧ categories example_db_after_step = categories example_db
  ∧ profiles example_db_after_step = profiles example_db
  ∧ auth_users example_db_after_step = auth_users example_db
  ∧ (∀ k, k ≠ "p1" →
          products example_db_after_step !! k = products example_db !! k)
  ∧ ∃ p', products example_db_after_step !! "p1" = Some p'
          ∧ name p' = name martelo
          ∧ description p' = description martelo
          ∧ category_id p' = category_id martelo
          ∧ product_unit p' = product_unit martelo
          ∧ minimum_quantity p' = minimum_quantity martelo
          ∧ created_at p' = created_at martelo.
Proof.
  apply (update_product_quantity_frame 6
           {| movement_id := "m2"; product_id := "p1";
              movement_type := "saida"; quantity := 3000;
              responsible_user_id := "ana"; notes := None;
              movement_created_at := 6 |}
           example_db example_db_after_step).
  vm_compute. reflexivity.
Defined.

Lemma spec_balance_step_written ty q Q k :
  kind_of_type ty = Some k →
  spec_balance_step Q (k, q) = written_balance ty q Q.
Proof.
  unfold kind_of_type, spec_balance_step, written_balance.
  repeat case_bool_decide; by intros [= <-].
Qed.

Lemma kind_of_type_is_Some ty :
  ty ∈ ["entrada"; "saida"] → is_Some (kind_of_type ty).
Proof.
  unfold kind_of_type. intros H. repeat case_bool_decide; [by eexists..|].
  set_solver.
Qed.

(** C1.  After any sequence of accepted movements, the ledger has grown by
    exactly one row per movement, every such row is an entry or an exit,
    and the [current_quantity] of any product is the left fold, from the
    quantity it started with, of the rows that name it: an entry of [q]
    takes [Q] to [Q + q], an exit of [q] takes [Q] to [max (Q - q) 0].
    A balance that starts non-negative is therefore non-negative at the
    end. *)
Theorem balance_is_clamped_fold ss : ∀ d d' k p,
  submit_all d ss = Some d' →
  products d !! k = Some p →
  (0 ≤ current_quantity p)%Z →
  ∃ rows p',
    stock_movements d' = stock_movements d ++ rows
    ∧ length rows = length ss
    ∧ Forall (λ m, is_Some (spec_movement m)) rows
    ∧ products d' !! k = Some p'
    ∧ current_quantity p'
      = foldl spec_balance_step (current_quantity p)
          (omap spec_movement (movements_of k rows))
    ∧ (0 ≤ current_quantity p')%Z.
Proof.
  induction ss as [|s ss IH]; intros d d' k p Hrun Hp Hnn.
  - injection Hrun as <-. exists [], p. rewrite app_nil_r. done.
  - cbn in Hrun. destruct (submit d s) as [d1|] eqn:Hs; [|done].
    unfold submit in Hs.
    apply insert_into_stock_movements_committed in Hs
      as (q & old & Hq & Hpos & Hfit & Huid & Hty & Hold & Hfk & Hid & Hc & Hd1).
    set (row := movement_row (sub_now s) (sub_id s) (sub_row s) q) in *.
    destruct (kind_of_type_is_Some _ Hty) as [kd Hkd].
    assert (spec_movement row = Some (kd, q)) as Hrow.
    { unfold spec_movement. cbn. by rewrite Hkd. }
    destruct (decide (new_product_id (sub_row s) = k)) as [Heq|Hne].
    + subst k. rewrite Hold in Hp. injection Hp as ->.
      apply products_check_nil in Hc as (_ & _ & Hnn1 & _). cbn in Hnn1.
      destruct (IH d1 d' (new_product_id (sub_row s))
                  (with_updated_at (sub_now s)
                     (with_current_quantity
                        (written_balance (new_movement_type (sub_row s)) q
                           (current_quantity p)) p))) as
        (rows & p' & Hl & Hlen & Hall & Hp' & Hcq & Hnn'); [done| |done|].
      { subst d1. cbn. apply lookup_insert_eq. }
      exists (row :: rows), p'. subst d1. cbn in Hl.
      rewrite <- app_assoc in Hl. repeat split; try done.
      * cbn. by rewrite Hlen.
      * constructor; [by eexists | done].
      * rewrite Hcq. unfold movements_of. rewrite filter_cons_True by done.
        cbn. rewrite Hrow. cbn.
        by rewrite (spec_balance_step_written _ _ _ _ Hkd).
    + destruct (IH d1 d' k p) as
        (rows & p' & Hl & Hlen & Hall & Hp' & Hcq & Hnn'); [done| |done|].
      { subst d1. cbn. by rewrite lookup_insert_ne. }
      exists (row :: rows), p'. subst d1. cbn in Hl.
      rewrite <- app_assoc in Hl. repeat split; try done.
      * cbn. by rewrite Hlen.
      * constructor; [by eexists | done].
      * rewrite Hcq. unfold movements_of. by rewrite filter_cons_False.
Qed.

Lemma balance_is_clamped_fold_witness :
  ∃ rows p',
    stock_movements example_db_after_submissions
    = stock_movements example_db ++ rows
    ∧ length rows = length example_submissions
    ∧ Forall (λ m, is_Some (spec_movement m)) rows
    ∧ products example_db_after_submissions !! "p1" = Some p'
    ∧ current_quantity p'
      = foldl spec_balance_step (current_quantity martelo)
          (omap spec_movement (movements_of "p1" rows))
    ∧ (0 ≤ current_quantity p')%Z.
Proof.
  apply (balance_is_clamped_fold example_submissions example_db
           example_db_after_submissions "p1" martelo).
  - vm_compute. reflexivity.
  - reflexivity.
  - cbn. lia.
Defined.

(** ** Low stock, the ledger, categories *)

(** C5.  The low-stock test is [current_quantity <= minimum_quantity],
    non-strict, and it is the same test in the three places that use it:
    the row badge of the stock page, the alert list of the stock page and
    the count of the dashboard.  Each is a function of the product
    snapshot it is given and of nothing else; a product exactly at its
    minimum is low. *)
Theorem low_stock_classification (ps : list product) (p : product) :
  (Stock.isLowStock p = true ↔ (current_quantity p ≤ minimum_quantity p)%Z)
  ∧ (p ∈ Stock.getLowStockProducts ps
     ↔ p ∈ ps ∧ (current_quantity p ≤ minimum_quantity p)%Z)
  ∧ Dashboard.lowStockProducts (Some ps)
    = length (Stock.getLowStockProducts ps)
  ∧ Stock.getLowStockProducts ps
    = filter (λ p, Stock.isLowStock p = true) ps
  ∧ (current_quantity p = minimum_quantity p → Stock.isLowStock p = true).
Proof.
  unfold Stock.isLowStock, Stock.getLowStockProducts,
    Dashboard.lowStockProducts, low_stock.
  split; [apply bool_decide_eq_true|].
  split; [rewrite list_elem_of_filter; tauto|].
  split; [done|].
  split.
  - apply list_filter_iff. intros q. by rewrite bool_decide_eq_true.
  - intros Heq. apply bool_decide_eq_true_2. lia.
Qed.

Lemma db_eta d :
  with_stock_movements (stock_movements d) d = d.
Proof. by destruct d. Qed.

Lemma targeted_no_policy c uid k m :
  c = UPDATE ∨ c = DELETE → targeted c uid k m = false.
Proof.
  intros Hc. unfold targeted.
  by rewrite (permitted_update_movement _ _ _ Hc), andb_false_r.
Qed.

Lemma update_stock_movements_no_effect uid k set d :
  update_stock_movements uid k set d = committed d.
Proof.
  unfold update_stock_movements.
  assert (∀ l : list stock_movement,
            concat ((λ m, if targeted UPDATE uid k m
                          then stock_movements_check d (set m) else [])
                      <$> l) = []) as Hnone.
  { induction l as [|m l IH]; [done|]. csimpl.
    by rewrite targeted_no_policy, IH by auto. }
  cbv zeta. rewrite Hnone.
  rewrite (list_fmap_ext _ id (stock_movements d)), list_fmap_id, db_eta;
    [done|].
  intros i m _. by rewrite targeted_no_policy by auto.
Qed.

Lemma delete_from_stock_movements_no_effect uid k d :
  delete_from_stock_movements uid k d = committed d.
Proof.
  unfold delete_from_stock_movements.
  assert (filter (λ m, targeted DELETE uid k m = false) (stock_movements d)
          = stock_movements d) as ->; [|by rewrite db_eta].
  induction (stock_movements d) as [|m l IH]; [done|].
  rewrite filter_cons_True by (apply targeted_no_policy; auto).
  by rewrite IH.
Qed.

Lemma step_keeps_movement d r m :
  m ∈ stock_movements d →
  req_statement r ≠ delete_product (product_id m) →
  m ∈ stock_movements (step d r).
Proof.
  intros Hm Hr. unfold step, execute.
  destruct (req_statement r) as [id fn|id nm ds|k|id pr|k u|k|id mr|k set|k].
  - unfold insert_into_auth_users, handle_new_user.
    destruct (violated _ _); [|done]. destruct (violated _ _); done.
  - unfold insert_into_categories. by destruct (_ ++ _).
  - unfold delete_from_categories.
    destruct (categories d !! k); [|done].
    destruct (permitted _ _ _ _); [|done]. by destruct (concat _).
  - unfold insert_into_products. by destruct (_ ++ _).
  - unfold update_products.
    destruct (products d !! k); [|done].
    destruct (permitted _ _ _ _); [|done]. by destruct (_ ++ _).
  - unfold delete_from_products.
    destruct (products d !! k); [|done].
    destruct (permitted _ _ _ _); [|done]. cbn.
    apply list_elem_of_filter. split; [congruence|done].
  - destruct (insert_into_stock_movements _ _ _ _ _) as [d'|] eqn:Hi; [|done].
    apply insert_into_stock_movements_committed in Hi
      as (q & old & _ & _ & _ & _ & _ & _ & _ & _ & _ & ->).
    cbn. apply elem_of_app. by left.
  - by rewrite update_stock_movements_no_effect.
  - by rewrite delete_from_stock_movements_no_effect.
Qed.

(** C6.  The ledger is append-only.  Across any list of requests, by any
    callers, a movement that is in the ledger stays in it, the same row,
    unless one of the requests deletes the product it belongs to (the
    cascade).  No policy admits [UPDATE] or [DELETE] on [stock_movements]
    for any caller and any row, so such statements touch nothing. *)
Theorem stock_movements_append_only rs : ∀ d m,
  m ∈ stock_movements d →
  Forall (λ r, req_statement r ≠ delete_product (product_id m)) rs →
  m ∈ stock_movements (run d rs)
  ∧ (∀ uid cols,
       permitted t_stock_movements UPDATE uid cols = false
       ∧ permitted t_stock_movements DELETE uid cols = false).
Proof.
  induction rs as [|r rs IH]; intros d m Hm Hrs.
  - split; [done|]. by intros uid cols.
  - apply Forall_cons in Hrs as [Hr Hrs]. cbn.
    apply IH; [|done]. by apply step_keeps_movement.
Qed.

Lemma stock_movements_append_only_witness :
  first_entry ∈ stock_movements (run example_db example_requests)
  ∧ (∀ uid cols,
       permitted t_stock_movements UPDATE uid cols = false
       ∧ permitted t_stock_movements DELETE uid cols = false).
Proof.
  apply (stock_movements_append_only example_requests example_db first_entry).
  - cbn. apply list_elem_of_here.
  - unfold example_requests. repeat constructor; cbn; discriminate.
Defined.

Lemma products_check_on_delete_set_null now c p :
  products_check (on_delete_set_null now c p) = products_check p.
Proof. unfold on_delete_set_null. by case_bool_decide. Qed.

Lemma concat_fmap_nil {A B} (f : A → list B) (l : list A) :
  Forall (λ x, f x = []) l → concat (f <$> l) = [].
Proof.
  induction 1 as [|x l Hx _ IH]; [done|]. csimpl. by rewrite Hx, IH.
Qed.

Lemma set_null_violations_nil now c d :
  constraints_hold d →
  concat ((λ kp : uuid * product,
             if bool_decide (category_id kp.2 = Some c)
             then products_check (on_delete_set_null now c kp.2)
             else [])
            <$> map_to_list (products d)) = [].
Proof.
  intros Hd. apply concat_fmap_nil, Forall_forall. intros [k p] Hkp. cbn.
  case_bool_decide; [|done].
  rewrite products_check_on_delete_set_null.
  apply elem_of_map_to_list in Hkp. by apply (Hd k p).
Qed.

(** C7, as the code has it.  When an authenticated caller deletes a
    category, every product that referenced it stays in the table with
    [category_id] cleared and [updated_at] refreshed to the instant of the
    deletion (the referential action is an update, so the products trigger
    fires); all its other columns are as before.  Products that did not
    reference the category are unchanged, no product is removed, and the
    ledger is untouched. *)
Theorem delete_category_sets_null uid now c d k p :
  constraints_hold d →
  authenticated uid = true →
  is_Some (categories d !! c) →
  products d !! k = Some p →
  category_id p = Some c →
  ∃ d',
    delete_from_categories uid now c d = committed d'
    ∧ categories d' !! c = None
    ∧ products d' !! k = Some (with_updated_at now (with_category_id None p))
    ∧ dom (products d') = dom (products d)
    ∧ (∀ k' p', products d !! k' = Some p' → category_id p' ≠ Some c →
                products d' !! k' = Some p')
    ∧ stock_movements d' = stock_movements d.
Proof.
  intros Hd Hauth [cat Hcat] Hp Hc.
  unfold delete_from_categories.
  rewrite Hcat, permitted_categories, Hauth, set_null_violations_nil by done.
  eexists. split; [done|]. cbn. repeat split.
  - apply lookup_delete_eq.
  - rewrite lookup_fmap, Hp. cbn. unfold on_delete_set_null.
    by rewrite bool_decide_eq_true_2.
  - apply dom_fmap_L.
  - intros k' p' Hp' Hne. rewrite lookup_fmap, Hp'. cbn.
    unfold on_delete_set_null. by rewrite bool_decide_eq_false_2.
Qed.

Lemma delete_category_sets_null_witness :
  ∃ d',
    delete_from_categories (Some "ana") 9 "c1" example_db = committed d'
    ∧ categories d' !! "c1" = None
    ∧ products d' !! "p1"
      = Some (with_updated_at 9 (with_category_id None martelo))
    ∧ dom (products d') = dom (products example_db)
    ∧ (∀ k' p', products example_db !! k' = Some p' →
                category_id p' ≠ Some "c1" →
                products d' !! k' = Some p')
    ∧ stock_movements d' = stock_movements example_db.
Proof.
  apply (delete_category_sets_null (Some "ana") 9 "c1" example_db "p1"
           martelo).
  - unfold constraints_hold, example_db. cbn.
    apply map_Forall_singleton. reflexivity.
  - reflexivity.
  - exists {| category_name := "Ferramentas Manuais";
              category_description := None; category_created_at := 0 |}.
    reflexivity.
  - reflexivity.
  - reflexivity.
Defined.

(** C7 as written fails on the example database: the product persists and
    loses its category, but its [updated_at] moves from 1 to 9, so it is
    not the old row with only the category cleared. *)
Lemma delete_category_refreshes_updated_at :
  products example_db !! "p1" = Some martelo
  ∧ category_id martelo = Some "c1"
  ∧ updated_at martelo = 1%Z
  ∧ updated_at
      <$> products
            (state_after example_db
               (delete_from_categories (Some "ana") 9 "c1" example_db))
          !! "p1"
    = Some 9%Z
  ∧ products
      (state_after example_db
         (delete_from_categories (Some "ana") 9 "c1" example_db))
    !! "p1"
    ≠ Some (with_category_id None martelo).
Proof.
  repeat split; try (vm_compute; reflexivity).
  vm_compute. discriminate.
Qed.

(** ** The stored rows keep their constraints *)

Lemma constraints_hold_empty : constraints_hold empty_db.
Proof. apply map_Forall_empty. Qed.

Lemma step_constraints_hold d r :
  constraints_hold d → constraints_hold (step d r).
Proof.
  intros Hd. unfold step, execute, constraints_hold.
  destruct (req_statement r) as [id fn|id nm ds|k|id pr|k u|k|id mr|k set|k].
  - unfold insert_into_auth_users, handle_new_user.
    destruct (violated _ _); [|done]. destruct (violated _ _); done.
  - unfold insert_into_categories. by destruct (_ ++ _).
  - unfold delete_from_categories.
    destruct (categories d !! k); [|done].
    destruct (permitted _ _ _ _); [|done].
    destruct (concat _); [|done]. cbn.
    apply map_Forall_fmap. intros i p Hp. cbn.
    rewrite products_check_on_delete_set_null. by apply (Hd i p).
  - unfold insert_into_products.
    destruct (_ ++ _) eqn:E; [|done]. cbn.
    apply app_nil in E as [_ E]. apply app_nil in E as [_ E].
    apply app_nil in E as [_ E]. apply app_nil in E as [E _].
    by apply map_Forall_insert_2.
  - unfold update_products.
    destruct (products d !! k); [|done].
    destruct (permitted _ _ _ _); [|done].
    destruct (_ ++ _) eqn:E; [|done]. cbn.
    apply app_nil in E as [_ E]. apply app_nil in E as [_ E].
    apply app_nil in E as [E _].
    by apply map_Forall_insert_2.
  - unfold delete_from_products.
    destruct (products d !! k); [|done].
    destruct (permitted _ _ _ _); [|done]. cbn.
    by apply map_Forall_delete.
  - destruct (insert_into_stock_movements _ _ _ _ _) as [d'|] eqn:Hi; [|done].
    apply insert_into_stock_movements_committed in Hi
      as (q & old & _ & _ & _ & _ & _ & _ & _ & _ & Hc & ->).
    cbn. by apply map_Forall_insert_2.
  - by rewrite update_stock_movements_no_effect.
  - by rewrite delete_from_stock_movements_no_effect.
Qed.

Lemma run_constraints_hold rs : ∀ d,
  constraints_hold d → constraints_hold (run d rs).
Proof.
  induction rs as [|r rs IH]; intros d Hd; [done|].
  cbn. by apply IH, step_constraints_hold.
Qed.

(** Every database reached from the empty one has them. *)
Lemma reachable_constraints_hold rs : constraints_hold (run empty_db rs).
Proof. apply run_constraints_hold, constraints_hold_empty. Qed.

(** ** The history dialog *)

#[global] Instance newer_first_total : Total Stock.newer_first.
Proof. intros a b. unfold Stock.newer_first. lia. Qed.

#[global] Instance newer_first_trans : Transitive Stock.newer_first.
Proof. intros a b c. unfold Stock.newer_first. lia. Qed.

Lemma visible_stock_movements session d :
  filter (λ m, permitted t_stock_movements SELECT session
                 (stock_movement_columns m) = true) (stock_movements d)
  = if authenticated session then stock_movements d else [].
Proof.
  induction (stock_movements d) as [|m l IH].
  - by destruct (authenticated session).
  - destruct (authenticated session) eqn:Ha.
    + rewrite filter_cons_True, IH; [done|].
      by rewrite permitted_select_movement.
    + rewrite filter_cons_False, IH; [done|].
      by rewrite permitted_select_movement, Ha.
Qed.

Lemma profileMap_lookup session userIds d k :
  k ∈ userIds →
  Stock.profileMap session userIds d !! k
  = if bool_decide (session = Some k) then full_name <$> profiles d !! k
    else None.
Proof.
  intros Hk. unfold Stock.profileMap. rewrite lookup_fmap.
  case_bool_decide as Hs.
  - destruct (profiles d !! k) as [pr|] eqn:Hpr; cbn.
    + erewrite (proj2 (map_lookup_filter_Some _ _ _ _)); [done|].
      split; [exact Hpr|]. split; [exact Hk|].
      subst session. cbn. by rewrite bool_decide_eq_true_2.
    + by rewrite (map_lookup_filter_None_2 _ _ _ (or_introl Hpr)).
  - rewrite map_lookup_filter_None_2; [done|]. right. intros pr _ [_ Hperm].
    rewrite permitted_select_profile in Hperm.
    by apply bool_decide_eq_true in Hperm.
Qed.

Lemma loadMovements_rows session d :
  Stock.view_row <$> Stock.loadMovements session d
  = Stock.movementsData session d.
Proof.
  unfold Stock.loadMovements. rewrite <- list_fmap_compose.
  etrans; [|apply list_fmap_id]. by apply list_fmap_ext.
Qed.

(** C9, as the code has it.  The history holds at most 50 rows, newest
    first; they are the most recent rows the caller may read (nothing is
    left out while fewer than 50 are shown, and no row left out is newer
    than a row shown).  Each row carries the name and unit of its product.
    The responsible user's name is shown only for the caller's own
    movements, when the caller's profile has a non-empty name: the
    profiles policy lets a caller read no profile but their own, and every
    other row shows the placeholder. *)
Theorem loadMovements_listing session d :
  let l := Stock.loadMovements session d in
  let visible := if authenticated session then stock_movements d else [] in
  length l ≤ 50
  ∧ StronglySorted Stock.newer_first (Stock.view_row <$> l)
  ∧ (∃ rest,
       (Stock.view_row <$> l) ++ rest ≡ₚ visible
       ∧ (length l < 50 → rest = [])
       ∧ ∀ m r, m ∈ Stock.view_row <$> l → r ∈ rest → Stock.newer_first m r)
  ∧ Forall (λ v,
       Stock.view_products v
       = (if authenticated session
          then (λ p, (name p, product_unit p))
                 <$> products d !! product_id (Stock.view_row v)
          else None)
       ∧ Stock.responsible_name v = shown_name session d (Stock.view_row v))
      l.
Proof.
  intros l visible.
  assert (Stock.movementsData session d
          = take 50 (merge_sort Stock.newer_first visible)) as Hrows.
  { unfold Stock.movementsData. by rewrite visible_stock_movements. }
  assert (length l = length (Stock.movementsData session d)) as Hlen.
  { unfold l, Stock.loadMovements. by rewrite length_fmap. }
  pose proof (StronglySorted_merge_sort Stock.newer_first visible) as Hss.
  rewrite <- (take_drop 50 (merge_sort Stock.newer_first visible)) in Hss.
  apply StronglySorted_app in Hss as (Hcross & Hsl & _).
  split; [|split; [|split]].
  - rewrite Hlen, Hrows, length_take. lia.
  - unfold l. by rewrite loadMovements_rows, Hrows.
  - exists (drop 50 (merge_sort Stock.newer_first visible)).
    unfold l. rewrite loadMovements_rows, Hrows. split; [|split].
    + by rewrite take_drop, merge_sort_Permutation.
    + fold l. rewrite Hlen, Hrows, length_take. intros Hlt.
      apply drop_ge. lia.
    + done.
  - unfold l, Stock.loadMovements. apply Forall_fmap, Forall_forall.
    intros m Hm. cbn. split.
    + unfold Stock.embedded_product. by rewrite permitted_products.
    + rewrite profileMap_lookup.
      2:{ apply elem_of_remove_dups. by apply list_elem_of_fmap_2. }
      unfold shown_name, Stock.name_or_default.
      destruct (profiles d !! responsible_user_id m) as [pr|]; cbn;
        repeat case_bool_decide; naive_solver.
Qed.

(** C9 as written fails on the example database: the first user opens the
    history, the one movement there was recorded by the second user, whose
    profile says "Bruno", and the row shows the placeholder instead. *)
Lemma history_hides_other_names :
  Stock.loadMovements (Some "ana") example_db
  = [ {| Stock.view_row := first_entry;
         Stock.view_products := Some ("Martelo", "unidade");
         Stock.responsible_name := "Usuário" |} ]
  ∧ responsible_user_id first_entry = "bruno"
  ∧ full_name <$> profiles example_db !! "bruno" = Some "Bruno".
Proof. repeat split; vm_compute; reflexivity.
Qed.

(** ** Two scenarios, evaluated *)

(** A product created with nothing in stock and a minimum of 10.00 is low;
    after one entry of 15.00 it holds 15.00 and is no longer low. *)
Example entry_lifts_low_stock :
  Stock.isLowStock alicate = true
  ∧ (λ p, (current_quantity p, Stock.isLowStock p))
      <$> products
            (state_after example_db_with_alicate
               (insert_into_stock_movements (Some "ana") 8 "m1"
                  {| new_product_id := "p2"; new_movement_type := "entrada";
                     new_quantity := Some 1500%Z; new_notes := None;
                     new_responsible_user_id := "ana" |}
                  example_db_with_alicate))
          !! "p2"
    = Some (1500%Z, false).
Proof. split; vm_compute; reflexivity. Qed.

(** A category is created, a product is registered in it, the category is
    deleted: the product is still there, without a category. *)
Example category_round_trip :
  (λ p, (name p, category_id p))
    <$> products
          (run example_db
             [ {| req_uid := Some "ana"; req_now := 3;
                  req_statement := insert_category "c2" "Acessórios" None |};
               {| req_uid := Some "ana"; req_now := 4;
                  req_statement :=
                    insert_product "p3"
                      {| ins_name := "Jogo de Brocas";
                         ins_description := None;
                         ins_category_id := Some "c2"; ins_unit := "kit";
                         ins_current_quantity := json_value 0%Z;
                         ins_minimum_quantity := json_value 1000%Z |} |};
               {| req_uid := Some "ana"; req_now := 5;
                  req_statement := delete_category "c2" |} ])
        !! "p3"
  = Some ("Jogo de Brocas", None).
Proof. vm_compute. reflexivity. Qed.

(** ** Product registration *)



Lemma insert_into_products_committed uid now new_id r d d' :
  insert_into_products uid now new_id r d = committed d' →
  ∃ p, products d !! new_id = None
       ∧ products d' = <[new_id := p]> (products d)
       ∧ current_quantity p
         = (not_null_column "current_quantity" 0%Z (ins_current_quantity r)).1
       ∧ products_check p = [].
Proof.
  unfold insert_into_products. destruct (_ ++ _) eqn:E; [|done].
  intros [= <-]. eexists. cbn.
  apply app_nil in E as [_ E]. apply app_nil in E as [_ E].
  apply app_nil in E as [_ E]. apply app_nil in E as [Hc E].
  apply app_nil in E as [_ E]. apply violated_nil in E.
  apply bool_decide_eq_true in E. done.
Qed.

Lemma update_products_quantity_kept uid now k u d d' i p' :
  upd_current_quantity u = None →
  update_products uid now k u d = committed d' →
  products d' !! i = Some p' →
  ∃ p, products d !! i = Some p ∧ current_quantity p' = current_quantity p.
Proof.
  unfold update_products. intros Hu H Hp'.
  destruct (products d !! k) as [old|] eqn:Hold;
    [|injection H as <-; by exists p'].
  destruct (permitted _ _ _ _); [|injection H as <-; by exists p'].
  destruct (_ ++ _); [|done]. injection H as <-. cbn in Hp'.
  destruct (decide (k = i)) as [->|Hne].
  - rewrite lookup_insert_eq in Hp'. injection Hp' as <-.
    exists old. split; [done|]. cbn. by rewrite Hu.
  - rewrite lookup_insert_ne in Hp' by done. by exists p'.
Qed.

Lemma perform_raises_only_by_entry parseFloat d a k p' :
  products (perform parseFloat d a) !! k = Some p' →
  (0 < current_quantity p')%Z →
  entry_for k a
  ∨ ∃ p, products d !! k = Some p ∧ (0 < current_quantity p)%Z.
Proof.
  intros Hp' Hpos.
  destruct a as [s e now id f|s c id|s u now id f|s now id nm ds|s now c];
    cbn in Hp'.
  - right. unfold Products.handleSubmit in Hp'.
    destruct (_ || _); [by exists p'|].
    destruct e as [k0|].
    + destruct (update_products _ _ _ _ _) as [d'|] eqn:Hu; [|by exists p'].
      cbn in Hp'.
      eapply update_products_quantity_kept in Hu as (p & Hp & Hq);
        [|done|exact Hp'].
      exists p. split; [done | lia].
    + destruct (insert_into_products _ _ _ _ _) as [d'|] eqn:Hi;
        [|by exists p'].
      cbn in Hp'.
      apply insert_into_products_committed in Hi as (p & Hnone & Hd' & Hq & _).
      rewrite Hd' in Hp'. destruct (decide (id = k)) as [->|Hne].
      * rewrite lookup_insert_eq in Hp'. injection Hp' as <-.
        cbn in Hq. lia.
      * rewrite lookup_insert_ne in Hp' by done. by exists p'.
  - right. unfold Products.handleDelete in Hp'.
    destruct (negb c); [by exists p'|].
    unfold delete_from_products in Hp'.
    destruct (products d !! id); [|by exists p'].
    destruct (permitted _ _ _ _); [|by exists p']. cbn in Hp'.
    apply lookup_delete_Some in Hp' as [_ Hp']. by exists p'.
  - unfold Stock.handleSubmit in Hp'.
    destruct (_ || _); [right; by exists p'|].
    destruct (number_le_zero _); [right; by exists p'|].
    destruct (insert_into_stock_movements _ _ _ _ _) as [d'|] eqn:Hi;
      [|right; by exists p'].
    cbn in Hp'.
    apply insert_into_stock_movements_committed in Hi
      as (q & old & _ & Hq & _ & _ & Hty & Hold & _ & _ & _ & ->).
    cbn in *. destruct (decide (Stock.form_product_id f = k)) as [Hk|Hne].
    + subst k. rewrite lookup_insert_eq in Hp'. injection Hp' as <-.
      cbn in Hpos. unfold written_balance in Hpos.
      repeat case_bool_decide.
      * by left.
      * right. exists old. split; [done | lia].
      * right. by exists old.
    + right. rewrite lookup_insert_ne in Hp' by done. by exists p'.
  - right. unfold insert_into_categories in Hp'.
    destruct (_ ++ _); by exists p'.
  - right. unfold delete_from_categories in Hp'.
    destruct (categories d !! c); [|by exists p'].
    destruct (permitted _ _ _ _); [|by exists p'].
    destruct (concat _); [|by exists p']. cbn in Hp'.
    rewrite lookup_fmap in Hp'.
    destruct (products d !! k) as [p|]; [|done]. injection Hp' as <-.
    exists p. split; [done|]. unfold on_delete_set_null in Hpos.
    by case_bool_decide.
Qed.

Lemma perform_all_raises_only_by_entry parseFloat acts : ∀ d k p',
  products (perform_all parseFloat d acts) !! k = Some p' →
  (0 < current_quantity p')%Z →
  (∃ a, a ∈ acts ∧ entry_for k a)
  ∨ ∃ p, products d !! k = Some p ∧ (0 < current_quantity p)%Z.
Proof.
  induction acts as [|a acts IH]; intros d k p' Hp' Hpos.
  - right. by exists p'.
  - cbn in Hp'. destruct (IH _ _ _ Hp' Hpos) as [(a' & Ha' & He)|(p & Hp & Hq)].
    + left. exists a'. split; [by right | done].
    + destruct (perform_raises_only_by_entry _ _ _ _ _ Hp Hq) as [He|Hd].
      * left. exists a. split; [by left | done].
      * by right.
Qed.

(** C10.  A product registered through the products page starts at zero:
    the form has no quantity field, the insert sends [current_quantity: 0],
    and a row inserted without the column takes the default 0.  From then
    on, whatever the users of the pages do, if the product's quantity is
    found positive then one of their actions was an entry movement
    submitted for that product. *)
Theorem product_registration_starts_at_zero
    parseFloat session now new_id f d message d' acts :
  Products.handleSubmit parseFloat session None now new_id f d
  = (toast_success message, d') →
  (∃ p0, products d !! new_id = None
         ∧ products d' = <[new_id := p0]> (products d)
         ∧ current_quantity p0 = 0%Z)
  ∧ (∀ uid t id r d1 d2,
       ins_current_quantity r = omitted →
       insert_into_products uid t id r d1 = committed d2 →
       current_quantity <$> products d2 !! id = Some 0%Z)
  ∧ (∀ p, products (perform_all parseFloat d' acts) !! new_id = Some p →
          (0 < current_quantity p)%Z →
          ∃ a, a ∈ acts ∧ entry_for new_id a).
Proof.
  unfold Products.handleSubmit. intros H.
  destruct (_ || _); [done|].
  destruct (insert_into_products _ _ _ _ _) as [d1|] eqn:Hi; [|done].
  injection H as _ <-.
  apply insert_into_products_committed in Hi as (p0 & Hnone & Hd1 & Hq & _).
  cbn in Hq. split; [by exists p0|]. split.
  - intros uid t id r da db Hr Hins.
    apply insert_into_products_committed in Hins as (p & _ & -> & Hp & _).
    rewrite lookup_insert_eq, Hr in *. cbn. by rewrite Hp.
  - intros p Hp Hpos.
    destruct (perform_all_raises_only_by_entry _ _ _ _ _ Hp Hpos)
      as [?|(p1 & Hp1 & Hq1)]; [done|].
    rewrite Hd1, lookup_insert_eq in Hp1. injection Hp1 as <-. lia.
Qed.

Lemma product_registration_starts_at_zero_witness :
  (∃ p0, products example_db !! "p2" = None
         ∧ products example_db_with_alicate
           = <["p2" := p0]> (products example_db)
         ∧ current_quantity p0 = 0%Z)
  ∧ (∀ uid t id r d1 d2,
       ins_current_quantity r = omitted →
       insert_into_products uid t id r d1 = committed d2 →
       current_quantity <$> products d2 !! id = Some 0%Z)
  ∧ (∀ p, products
            (perform_all example_parseFloat example_db_with_alicate
               [submit_movement (Some "ana") "ana" 8 "m1" example_stock_form])
          !! "p2" = Some p →
          (0 < current_quantity p)%Z →
          ∃ a, a ∈ [submit_movement (Some "ana") "ana" 8 "m1"
                      example_stock_form]
               ∧ entry_for "p2" a).
Proof.
  apply (product_registration_starts_at_zero example_parseFloat (Some "ana")
           7 "p2" example_product_form example_db
           "Produto criado com sucesso!").
  vm_compute. reflexivity.
Defined.

(** * Further properties of the tables and the pages *)

Lemma violated_false_cons v (l : list violation) :
  ∃ w l', violated false v ++ l = w :: l'.
Proof. by eexists _, _. Qed.

Lemma filter_nil_forall {A} (P : A → Prop) `{∀ x, Decision (P x)}
    (l : list A) :
  (∀ x, ¬ P x) → filter P l = [].
Proof.
  intros HP. induction l as [|x l IH]; [done|].
  by rewrite filter_cons_False.
Qed.

Lemma filter_all_forall {A} (P : A → Prop) `{∀ x, Decision (P x)}
    (l : list A) :
  (∀ x, P x) → filter P l = l.
Proof.
  intros HP. induction l as [|x l IH]; [done|].
  rewrite filter_cons_True by done. by rewrite IH.
Qed.

(** X1.  A request sent without a session changes nothing: whatever
    statement on categories, products or movements it carries, the
    database after it is the database before it. *)
Theorem anonymous_changes_nothing d r :
  req_uid r = None →
  (∀ id fn, req_statement r ≠ sign_up id fn) →
  step d r = d.
Proof.
  intros Hu Hs. unfold step, execute. rewrite Hu.
  destruct (req_statement r) as [id fn|id nm ds|k|id pr|k u|k|id mr|k set|k].
  - by destruct (Hs id fn).
  - unfold insert_into_categories. rewrite permitted_categories. cbn.
    done.
  - unfold delete_from_categories. destruct (categories d !! k); [|done].
    by rewrite permitted_categories.
  - unfold insert_into_products. rewrite permitted_products. cbn. done.
  - unfold update_products. destruct (products d !! k); [|done].
    by rewrite permitted_products.
  - unfold delete_from_products. destruct (products d !! k); [|done].
    by rewrite permitted_products.
  - rewrite (insert_into_stock_movements_violation _ _ _ _ _
               (row_level_security t_stock_movements)); [done|].
    by apply foreign_responsible_violation.
  - by rewrite update_stock_movements_no_effect.
  - by rewrite delete_from_stock_movements_no_effect.
Qed.

Lemma anonymous_changes_nothing_witness :
  step example_db example_anonymous_request = example_db.
Proof.
  apply (anonymous_changes_nothing example_db example_anonymous_request).
  - reflexivity.
  - intros id fn. discriminate.
Defined.

(** X2.  Without a session every read is empty: no product, no movement,
    no profile, a dashboard of four zeros; and the three pages' [checkAuth]
    send the visitor to the sign-in route, leaving their state as it
    was. *)
Theorem anonymous_reads_nothing d id userName :
  select_products None d = []
  ∧ Stock.loadMovements None d = []
  ∧ Dashboard.loadDashboardData None d
    = {| Dashboard.totalProducts := 0;
         Dashboard.lowStockProductsCount := 0;
         Dashboard.totalEntries := 0;
         Dashboard.totalExits := 0 |}
  ∧ Dashboard.select_profile None id d = None
  ∧ Dashboard.checkAuth None userName d = (Some "/auth", userName)
  ∧ Stock.checkAuth None userName = (Some "/auth", userName)
  ∧ Index.checkAuth None = "/auth".
Proof.
  assert (select_products None d = []) as Hsel.
  { unfold select_products. apply filter_nil_forall. intros [k p].
    by rewrite permitted_products. }
  assert (∀ ty, Dashboard.count_movements None ty d = 0) as Hcnt.
  { intros ty. unfold Dashboard.count_movements.
    rewrite filter_nil_forall; [done|]. intros m [Hp _].
    by rewrite permitted_select_movement in Hp. }
  split; [done|]. split.
  { unfold Stock.loadMovements, Stock.movementsData.
    by rewrite visible_stock_movements. }
  split.
  { unfold Dashboard.loadDashboardData. by rewrite Hsel, !Hcnt. }
  done.
Qed.

Lemma products_category_fk_nil d p :
  products_category_fk d p = [] ↔
  ∀ c, category_id p = Some c → is_Some (categories d !! c).
Proof.
  unfold products_category_fk. destruct (category_id p) as [c|].
  - rewrite violated_nil, bool_decide_eq_true. naive_solver.
  - naive_solver.
Qed.

Lemma insert_into_products_inv uid now new_id r d d' :
  insert_into_products uid now new_id r d = committed d' →
  ∃ p, d' = with_products (<[new_id := p]> (products d)) d
       ∧ authenticated uid = true
       ∧ products d !! new_id = None
       ∧ products_check p = []
       ∧ products_category_fk d p = []
       ∧ name p = ins_name r
       ∧ description p = ins_description r
       ∧ category_id p = ins_category_id r
       ∧ product_unit p = ins_unit r
       ∧ current_quantity p
         = (not_null_column "current_quantity" 0%Z
              (ins_current_quantity r)).1
       ∧ minimum_quantity p
         = (not_null_column "minimum_quantity" 0%Z
              (ins_minimum_quantity r)).1
       ∧ ins_current_quantity r ≠ json_null
       ∧ ins_minimum_quantity r ≠ json_null
       ∧ created_at p = now ∧ updated_at p = now.
Proof.
  unfold insert_into_products. destruct (_ ++ _) eqn:E; [|done].
  intros [= <-]. eexists. split; [done|].
  apply app_nil in E as [Hrls E]. apply app_nil in E as [Hcq E].
  apply app_nil in E as [Hmq E]. apply app_nil in E as [Hc E].
  apply app_nil in E as [Hfk E]. apply violated_nil in E, Hrls.
  apply bool_decide_eq_true in E. rewrite permitted_products in Hrls.
  repeat split; try done.
  - by destruct (ins_current_quantity r).
  - by destruct (ins_minimum_quantity r).
Qed.

Lemma update_products_inv uid now k u d d' :
  update_products uid now k u d = committed d' →
  (d' = d ∧ (products d !! k = None ∨ authenticated uid = false))
  ∨ ∃ old p,
      products d !! k = Some old
      ∧ authenticated uid = true
      ∧ d' = with_products (<[k := p]> (products d)) d
      ∧ products_check p = []
      ∧ name p = default (name old) (upd_name u)
      ∧ description p = default (description old) (upd_description u)
      ∧ category_id p = default (category_id old) (upd_category_id u)
      ∧ product_unit p = default (product_unit old) (upd_unit u)
      ∧ current_quantity p
        = (assigned_quantity "current_quantity" (current_quantity old)
             (upd_current_quantity u)).1
      ∧ minimum_quantity p
        = (assigned_quantity "minimum_quantity" (minimum_quantity old)
             (upd_minimum_quantity u)).1
      ∧ upd_current_quantity u ≠ Some None
      ∧ upd_minimum_quantity u ≠ Some None
      ∧ created_at p = created_at old ∧ updated_at p = now
      ∧ (is_Some (upd_category_id u) → products_category_fk d p = []).
Proof.
  unfold update_products.
  destruct (products d !! k) as [old|] eqn:Hold;
    [|intros [= <-]; left; split; [done|by left]].
  rewrite permitted_products.
  destruct (authenticated uid) eqn:Ha;
    [|intros [= <-]; left; split; [done|by right]].
  destruct (_ ++ _) eqn:E; [|done]. intros [= <-]. right.
  apply app_nil in E as [Hcq E]. apply app_nil in E as [Hmq E].
  apply app_nil in E as [Hc Hfk].
  eexists old, _. split; [done|]. split; [done|]. split; [done|].
  repeat split; try done.
  - by destruct (upd_current_quantity u) as [[]|].
  - by destruct (upd_minimum_quantity u) as [[]|].
  - intros [c Hc']. rewrite Hc' in Hfk |- *. done.
Qed.

Lemma delete_from_products_inv uid k d :
  delete_from_products uid k d
  = committed
      (if bool_decide (is_Some (products d !! k)) && authenticated uid
       then {| auth_users := auth_users d; profiles := profiles d;
               categories := categories d;
               products := delete k (products d);
               stock_movements :=
                 filter (λ m, product_id m ≠ k) (stock_movements d) |}
       else d).
Proof.
  unfold delete_from_products. rewrite permitted_products.
  destruct (products d !! k) eqn:E.
  - rewrite bool_decide_eq_true_2 by by eexists.
    by destruct (authenticated uid).
  - rewrite bool_decide_eq_false_2; [done|]. by intros [? ?].
Qed.

Lemma delete_from_categories_inv uid now k d d' :
  delete_from_categories uid now k d = committed d' →
  d' = d
  ∨ (authenticated uid = true ∧ is_Some (categories d !! k)
     ∧ d' = {| auth_users := auth_users d; profiles := profiles d;
               categories := delete k (categories d);
               products := on_delete_set_null now k <$> products d;
               stock_movements := stock_movements d |}).
Proof.
  unfold delete_from_categories.
  destruct (categories d !! k) eqn:E; [|intros [= <-]; by left].
  rewrite permitted_categories.
  destruct (authenticated uid); [|intros [= <-]; by left].
  destruct (concat _); [|done]. intros [= <-]. right. by eauto.
Qed.

Lemma insert_into_categories_inv uid now new_id nm descr d d' :
  insert_into_categories uid now new_id nm descr d = committed d' →
  authenticated uid = true
  ∧ map_Forall (λ _ c, category_name c ≠ nm) (categories d)
  ∧ categories d !! new_id = None
  ∧ d' = with_categories
           (<[new_id := {| category_name := nm;
                           category_description := descr;
                           category_created_at := now |}]> (categories d)) d.
Proof.
  unfold insert_into_categories. destruct (_ ++ _) eqn:E; [|done].
  intros [= <-]. apply app_nil in E as [Hrls E]. apply app_nil in E as [Hn E].
  apply violated_nil in Hrls, Hn, E. rewrite permitted_categories in Hrls.
  apply bool_decide_eq_true in Hn, E. done.
Qed.

Lemma insert_into_auth_users_inv now new_id fn d d' :
  insert_into_auth_users now new_id fn d = committed d' →
(new_id ∉ auth_users d) ∧ profiles d !! new_id = None
  ∧ d' = {| auth_users := {[new_id]} ∪ auth_users d;
            profiles :=
              <[new_id := {| full_name := default "Usuário" fn;
                            profile_created_at := now |}]> (profiles d);
            categories := categories d; products := products d;
            stock_movements := stock_movements d |}.
Proof.
  unfold insert_into_auth_users.
  destruct (violated (bool_decide (new_id ∉ auth_users d)) _) eqn:E1; [|done].
  unfold handle_new_user. cbn [profiles].
  destruct (violated (bool_decide (profiles d !! new_id = None)) _) eqn:E2;
    [|done].
  intros [= <-].
  apply violated_nil, bool_decide_eq_true in E1.
  apply violated_nil, bool_decide_eq_true in E2. done.
Qed.

Lemma on_delete_set_null_category now k p c :
  category_id (on_delete_set_null now k p) = Some c →
  category_id p = Some c ∧ c ≠ k.
Proof.
  unfold on_delete_set_null. case_bool_decide as H; cbn; [done|].
  intros Hc. split; [done|]. intros ->. by rewrite Hc in H.
Qed.

Lemma step_references_hold d r :
  references_hold d → references_hold (step d r).
Proof.
  intros (Hm & Hp & Hpr). unfold step, execute.
  destruct (req_statement r) as [id fn|id nm ds|k|id pr|k u|k|id mr|k set|k].
  - destruct (insert_into_auth_users _ _ _ _) as [d'|] eqn:E; [|done].
    apply insert_into_auth_users_inv in E as (_ & _ & ->). cbn.
    repeat split; cbn.
    + eapply Forall_impl; [exact Hm|]. intros m [? ?]. split; [done|].
      set_solver.
    + done.
    + rewrite dom_insert. set_solver.
  - destruct (insert_into_categories _ _ _ _ _ _) as [d'|] eqn:E; [|done].
    apply insert_into_categories_inv in E as (_ & _ & _ & ->). cbn.
    repeat split; cbn; try done.
    intros i p Hi c Hc. apply lookup_insert_is_Some'. right.
    by apply (Hp i p Hi).
  - destruct (delete_from_categories _ _ _ _) as [d'|] eqn:E; [|done].
    apply delete_from_categories_inv in E as [->|(_ & _ & ->)]; [done|].
    cbn. repeat split; cbn; try done.
    + eapply Forall_impl; [exact Hm|]. intros m [[p Hmp] ?]. split; [|done].
      rewrite lookup_fmap, Hmp. by eexists.
    + apply map_Forall_fmap. intros i p Hi c Hc. cbn in Hc.
      apply on_delete_set_null_category in Hc as [Hc Hne].
      rewrite lookup_delete_ne by done. by apply (Hp i p Hi).
  - destruct (insert_into_products _ _ _ _ _) as [d'|] eqn:E; [|done].
    apply insert_into_products_inv in E
      as (p & -> & _ & _ & _ & Hfk & _). cbn. repeat split; cbn; try done.
    + eapply Forall_impl; [exact Hm|]. intros m [? ?]. split; [|done].
      apply lookup_insert_is_Some'. by right.
    + apply map_Forall_insert_2; [|done].
      by apply products_category_fk_nil.
  - destruct (update_products _ _ _ _ _) as [d'|] eqn:E; [|done].
    apply update_products_inv in E
      as [[-> _]|(old & p & Hold & _ & -> & _ & _ & _ & Hcat & _ & _ & _ & _
                  & _ & _ & _ & Hfk)]; [done|].
    cbn. repeat split; cbn; try done.
    + eapply Forall_impl; [exact Hm|]. intros m [? ?]. split; [|done].
      apply lookup_insert_is_Some'. by right.
    + apply map_Forall_insert_2; [|done].
      destruct (upd_category_id u) as [c'|] eqn:Hu.
      * apply products_category_fk_nil, Hfk. by eexists.
      * cbn in Hcat. intros c Hc. rewrite Hcat in Hc.
        by apply (Hp k old Hold).
  - rewrite delete_from_products_inv. cbn.
    destruct (_ && _); [|done]. repeat split; cbn; try done.
    + apply Forall_forall. intros m [Hne Hin]%list_elem_of_filter.
      rewrite Forall_forall in Hm. destruct (Hm m Hin) as [? ?].
      split; [|done]. by rewrite lookup_delete_ne.
    + by apply map_Forall_delete.
  - destruct (insert_into_stock_movements _ _ _ _ _) as [d'|] eqn:E; [|done].
    apply insert_into_stock_movements_committed in E
      as (q & old & _ & _ & _ & _ & _ & Hold & Hfk & _ & _ & ->).
    cbn. repeat split; cbn; try done.
    + apply Forall_app. split.
      * eapply Forall_impl; [exact Hm|]. intros m [? ?]. split; [|done].
        apply lookup_insert_is_Some'. by right.
      * apply Forall_singleton. cbn. split; [|done].
        apply lookup_insert_is_Some'. by left.
    + apply map_Forall_insert_2; [|done]. cbn. by apply (Hp _ old Hold).
  - by rewrite update_stock_movements_no_effect.
  - by rewrite delete_from_stock_movements_no_effect.
Qed.

(** X3.  Referential integrity is kept by every request: if every
    movement names a stored product and a registered identity, every
    product's category is a stored category and every profile belongs to
    a registered identity, the same is true after any list of requests.
    Deleting a product or a category never leaves a row pointing at
    it. *)
Theorem run_references_hold rs : ∀ d,
  references_hold d → references_hold (run d rs).
Proof.
  induction rs as [|r rs IH]; intros d Hd; [done|].
  cbn. by apply IH, step_references_hold.
Qed.

Lemma run_references_hold_witness :
  references_hold (run example_db example_requests).
Proof.
  apply (run_references_hold example_requests example_db).
  split; [|split].
  - apply Forall_singleton. split; [by eexists | vm_compute; reflexivity].
  - apply map_Forall_singleton. intros c [= <-]. by eexists.
  - cbn. rewrite dom_insert_L, dom_singleton_L. set_solver.
Defined.

Lemma step_ledger_rows_hold d r :
  ledger_rows_hold d → ledger_rows_hold (step d r).
Proof.
  intros [Hrows Hids]. unfold step, execute.
  destruct (req_statement r) as [id fn|id nm ds|k|id pr|k u|k|id mr|k set|k].
  - destruct (insert_into_auth_users _ _ _ _) as [d'|] eqn:E; [|done].
    by apply insert_into_auth_users_inv in E as (_ & _ & ->).
  - destruct (insert_into_categories _ _ _ _ _ _) as [d'|] eqn:E; [|done].
    by apply insert_into_categories_inv in E as (_ & _ & _ & ->).
  - destruct (delete_from_categories _ _ _ _) as [d'|] eqn:E; [|done].
    by apply delete_from_categories_inv in E as [->|(_ & _ & ->)].
  - destruct (insert_into_products _ _ _ _ _) as [d'|] eqn:E; [|done].
    by apply insert_into_products_inv in E as (p & -> & _).
  - destruct (update_products _ _ _ _ _) as [d'|] eqn:E; [|done].
    by apply update_products_inv in E as [[-> _]|(old & p & _ & _ & -> & _)].
  - rewrite delete_from_products_inv. cbn.
    destruct (_ && _); [|done]. split; cbn.
    + apply Forall_forall. intros m [_ Hin]%list_elem_of_filter.
      rewrite Forall_forall in Hrows. by apply Hrows.
    + apply (sublist_NoDup _ _ Hids), fmap_sublist, sublist_filter.
  - destruct (insert_into_stock_movements _ _ _ _ _) as [d'|] eqn:E; [|done].
    apply insert_into_stock_movements_committed in E
      as (q & old & _ & Hq & Hfit & _ & Hty & _ & _ & Hid & _ & ->).
    split; cbn.
    + apply Forall_app. split; [done|]. by apply Forall_singleton.
    + rewrite fmap_app. apply NoDup_app. split; [done|]. split.
      * intros x Hx ->%list_elem_of_singleton. done.
      * apply NoDup_singleton.
  - by rewrite update_stock_movements_no_effect.
  - by rewrite delete_from_stock_movements_no_effect.
Qed.

(** X4.  Across any list of requests every row of the ledger has a
    positive quantity the column can hold and one of the two movement
    types, and no two rows share an identifier. *)
Theorem run_ledger_rows_hold rs : ∀ d,
  ledger_rows_hold d → ledger_rows_hold (run d rs).
Proof.
  induction rs as [|r rs IH]; intros d Hd; [done|].
  cbn. by apply IH, step_ledger_rows_hold.
Qed.

Lemma run_ledger_rows_hold_witness :
  ledger_rows_hold (run example_db example_requests).
Proof.
  apply (run_ledger_rows_hold example_requests example_db).
  split.
  - apply Forall_singleton. cbn. split; [lia|]. split; [reflexivity|].
    apply list_elem_of_here.
  - cbn. apply NoDup_singleton.
Defined.

Lemma fits_numeric_10_2_spec v :
  fits_numeric_10_2 v = true
  ↔ (- numeric_10_2_limit < v < numeric_10_2_limit)%Z.
Proof. unfold fits_numeric_10_2. apply bool_decide_eq_true. Qed.

Lemma written_balance_cases ty q Q :
  ty ∈ ["entrada"; "saida"] →
  (ty = "entrada" ∧ written_balance ty q Q = (Q + q)%Z)
  ∨ (ty = "saida" ∧ written_balance ty q Q = Z.max (Q - q) 0).
Proof.
  intros Hty. unfold written_balance. repeat case_bool_decide.
  - by left.
  - right. by split.
  - set_solver.
Qed.

Lemma insert_into_stock_movements_admissible uid now new_id r d q old :
  constraints_hold d →
  uid = Some (new_responsible_user_id r) →
  new_responsible_user_id r ∈ auth_users d →
  new_movement_type r ∈ ["entrada"; "saida"] →
  new_id ∉ (movement_id <$> stock_movements d) →
  new_quantity r = Some q →
  (0 < q < numeric_10_2_limit)%Z →
  products d !! new_product_id r = Some old →
  (new_movement_type r = "entrada" →
   (current_quantity old + q < numeric_10_2_limit)%Z) →
  ∃ d', insert_into_stock_movements uid now new_id r d = committed d'.
Proof.
  intros Hd Huid Hfk Hty Hid Hq Hrange Hold Hover.
  eexists. eapply insert_into_stock_movements_accepts; try done.
  - lia.
  - apply fits_numeric_10_2_spec. lia.
  - pose proof (Hd _ _ Hold) as Hc.
    apply products_check_nil in Hc as (Hf1 & Hf2 & Hcq & Hmq).
    apply fits_numeric_10_2_spec in Hf1.
    apply products_check_nil. cbn.
    rewrite fits_numeric_10_2_spec.
    destruct (written_balance_cases _ q (current_quantity old) Hty)
      as [[Hen ->]|[_ ->]]; [specialize (Hover Hen)|]; repeat split;
      try done; lia.
Qed.

(** X5.  Where the stored products satisfy their checks, an insert of a
    movement commits exactly when the caller is the responsible user and
    a registered identity, the type is one of the two, the identifier is
    fresh, the quantity is positive and within the column's range, the
    product exists, and, for an entry, the new balance is still within
    the column's range.  The balance plays no part in accepting an
    exit. *)
Theorem insert_into_stock_movements_commits_iff uid now new_id r d :
  constraints_hold d →
  (∃ d', insert_into_stock_movements uid now new_id r d = committed d')
  ↔ uid = Some (new_responsible_user_id r)
    ∧ new_responsible_user_id r ∈ auth_users d
    ∧ new_movement_type r ∈ ["entrada"; "saida"]
    ∧ (new_id ∉ movement_id <$> stock_movements d)
    ∧ ∃ q old,
        new_quantity r = Some q
        ∧ (0 < q < numeric_10_2_limit)%Z
        ∧ products d !! new_product_id r = Some old
        ∧ (new_movement_type r = "entrada" →
           (current_quantity old + q < numeric_10_2_limit)%Z).
Proof.
  intros Hd. split.
  - intros [d' H].
    apply insert_into_stock_movements_committed in H
      as (q & old & Hq & Hpos & Hfit & Huid & Hty & Hold & Hfk & Hid & Hc & _).
    repeat split; try done. exists q, old.
    apply fits_numeric_10_2_spec in Hfit.
    apply products_check_nil in Hc as (Hf & _). cbn in Hf.
    apply fits_numeric_10_2_spec in Hf.
    repeat split; try done; try lia.
    intros Hen. rewrite Hen in Hf. by destruct Hf.
  - intros (Huid & Hfk & Hty & Hid & q & old & Hq & Hrange & Hold & Hover).
    by eapply insert_into_stock_movements_admissible.
Qed.

Lemma insert_into_stock_movements_commits_iff_witness :
  (∃ d', insert_into_stock_movements (Some "ana") 5 "m1" example_exit
           example_db = committed d')
  ↔ Some "ana" = Some (new_responsible_user_id example_exit)
    ∧ new_responsible_user_id example_exit ∈ auth_users example_db
    ∧ new_movement_type example_exit ∈ ["entrada"; "saida"]
    ∧ ("m1" ∉ movement_id <$> stock_movements example_db)
    ∧ ∃ q old,
        new_quantity example_exit = Some q
        ∧ (0 < q < numeric_10_2_limit)%Z
        ∧ products example_db !! new_product_id example_exit = Some old
        ∧ (new_movement_type example_exit = "entrada" →
           (current_quantity old + q < numeric_10_2_limit)%Z).
Proof.
  apply (insert_into_stock_movements_commits_iff (Some "ana") 5 "m1"
           example_exit example_db).
  apply map_Forall_singleton. reflexivity.
Defined.

(** X6.  An entry that would take the balance to 100000000.00 or beyond is
    rolled back whole: the one rule broken is the range of
    [current_quantity], and neither the movement nor the new balance is
    kept. *)
Theorem entry_overflow_rolls_back uid now new_id r d q old :
  constraints_hold d →
  uid = Some (new_responsible_user_id r) →
  new_responsible_user_id r ∈ auth_users d →
  new_id ∉ (movement_id <$> stock_movements d) →
  new_movement_type r = "entrada" →
  new_quantity r = Some q →
  (0 < q < numeric_10_2_limit)%Z →
  products d !! new_product_id r = Some old →
  (numeric_10_2_limit ≤ current_quantity old + q)%Z →
  insert_into_stock_movements uid now new_id r d
  = rolled_back [numeric_field_overflow "current_quantity"]
  ∧ state_after d (insert_into_stock_movements uid now new_id r d) = d.
Proof.
  intros Hd Huid Hfk Hid Hty Hq Hrange Hold Hover.
  assert (insert_into_stock_movements uid now new_id r d
          = rolled_back [numeric_field_overflow "current_quantity"]) as ->;
    [|done].
  unfold insert_into_stock_movements. rewrite Hq.
  assert (stock_movements_violations d uid new_id r = []) as ->.
  { apply stock_movements_violations_nil. split; [done|]. split.
    { exists q. split; [done|]. split; [|lia].
      apply fits_numeric_10_2_spec. lia. }
    split; [rewrite Hty; set_solver|]. split; [by eexists|]. done. }
  unfold update_product_quantity. cbn [movement_type movement_row].
  rewrite Hty, (bool_decide_eq_true_2 ("entrada" = "entrada")) by done.
  unfold update_products_where_id, update_updated_at_column. cbn.
  rewrite Hold.
  pose proof (Hd _ _ Hold) as Hc.
  apply products_check_nil in Hc as (Hf1 & Hf2 & Hcq & Hmq).
  unfold products_check. cbn. rewrite Hf2.
  assert (fits_numeric_10_2 (current_quantity old + q) = false) as ->.
  { apply bool_decide_eq_false. intros [_ Hlt]. lia. }
  rewrite !bool_decide_eq_true_2 by lia. done.
Qed.

Lemma entry_overflow_rolls_back_witness :
  insert_into_stock_movements (Some "ana") 5 "m1" example_entry
    example_db_full
  = rolled_back [numeric_field_overflow "current_quantity"]
  ∧ state_after example_db_full
      (insert_into_stock_movements (Some "ana") 5 "m1" example_entry
         example_db_full)
    = example_db_full.
Proof.
  apply (entry_overflow_rolls_back (Some "ana") 5 "m1" example_entry
           example_db_full 1500 (with_current_quantity 9999999900 martelo)).
  - apply map_Forall_singleton. reflexivity.
  - reflexivity.
  - vm_compute. reflexivity.
  - cbn. rewrite list_elem_of_singleton. discriminate.
  - reflexivity.
  - reflexivity.
  - unfold numeric_10_2_limit. lia.
  - reflexivity.
  - unfold numeric_10_2_limit. cbn. lia.
Defined.

(** X7.  An accepted exit never raises the balance, so a product that was
    low stays low; an accepted entry raises it, so a product that was not
    low stays not low. *)
Theorem low_stock_monotone uid now new_id r d d' old :
  constraints_hold d →
  insert_into_stock_movements uid now new_id r d = committed d' →
  products d !! new_product_id r = Some old →
  ∃ p', products d' !! new_product_id r = Some p'
        ∧ (new_movement_type r = "saida" →
           (current_quantity p' ≤ current_quantity old)%Z
           ∧ (Stock.isLowStock old = true → Stock.isLowStock p' = true))
        ∧ (new_movement_type r = "entrada" →
           (current_quantity old < current_quantity p')%Z
           ∧ (Stock.isLowStock old = false → Stock.isLowStock p' = false)).
Proof.
  intros Hd H Hold.
  apply insert_into_stock_movements_committed in H
    as (q & old' & Hq & Hpos & _ & _ & Hty & Hold' & _ & _ & _ & ->).
  rewrite Hold in Hold'. injection Hold' as <-.
  pose proof (Hd _ _ Hold) as (_ & _ & Hcq & _)%products_check_nil.
  eexists. split; [cbn; apply lookup_insert_eq|].
  unfold Stock.isLowStock. cbn. split.
  - intros Hs. rewrite Hs, written_balance_saida. split; [lia|].
    rewrite !bool_decide_eq_true. lia.
  - intros He. rewrite He. change (written_balance "entrada" q
      (current_quantity old)) with (current_quantity old + q)%Z.
    split; [lia|]. rewrite !bool_decide_eq_false. lia.
Qed.

Lemma low_stock_monotone_witness :
  ∃ p', products example_db_after_exit !! new_product_id example_exit
        = Some p'
        ∧ (new_movement_type example_exit = "saida" →
           (current_quantity p' ≤ current_quantity martelo)%Z
           ∧ (Stock.isLowStock martelo = true →
              Stock.isLowStock p' = true))
        ∧ (new_movement_type example_exit = "entrada" →
           (current_quantity martelo < current_quantity p')%Z
           ∧ (Stock.isLowStock martelo = false →
              Stock.isLowStock p' = false)).
Proof.
  apply (low_stock_monotone (Some "ana") 5 "m1" example_exit example_db
           example_db_after_exit martelo).
  - apply map_Forall_singleton. reflexivity.
  - vm_compute. reflexivity.
  - reflexivity.
Defined.

Lemma count_movements_authenticated session ty d :
  authenticated session = true →
  Dashboard.count_movements session ty d
  = length (filter (λ m, movement_type m = ty) (stock_movements d)).
Proof.
  intros Ha. unfold Dashboard.count_movements. f_equal.
  apply list_filter_iff. intros m.
  rewrite permitted_select_movement, Ha. naive_solver.
Qed.

Lemma select_products_authenticated session d :
  authenticated session = true →
  select_products session d = map_to_list (products d).
Proof.
  intros Ha. unfold select_products. apply filter_all_forall.
  intros [k p]. by rewrite permitted_products.
Qed.

(** X8.  For a caller with a session the dashboard shows the number of
    stored products, a low-stock count no larger than it, and entry and
    exit counts that add up to the length of the ledger. *)
Theorem dashboard_counts session d :
  authenticated session = true →
  ledger_rows_hold d →
  let stats := Dashboard.loadDashboardData session d in
  Dashboard.totalProducts stats = size (products d)
  ∧ Dashboard.lowStockProductsCount stats ≤ Dashboard.totalProducts stats
  ∧ Dashboard.totalEntries stats + Dashboard.totalExits stats
    = length (stock_movements d).
Proof.
  intros Ha [Hrows _] stats. unfold stats, Dashboard.loadDashboardData. cbn.
  rewrite !count_movements_authenticated, select_products_authenticated
    by done.
  split; [by rewrite length_map_to_list|]. split.
  - rewrite <- (length_fmap snd (map_to_list (products d))).
    apply length_filter.
  - induction Hrows as [|m l (_ & _ & Hty) _ IH]; [done|].
    assert (movement_type m = "entrada" ∨ movement_type m = "saida")
      as [He|Hs] by set_solver.
    + rewrite filter_cons_True, filter_cons_False by (by rewrite ?He).
      cbn. lia.
    + rewrite filter_cons_False, filter_cons_True by (by rewrite ?Hs).
      cbn. lia.
Qed.

Lemma dashboard_counts_witness :
  Dashboard.totalProducts (Dashboard.loadDashboardData (Some "ana") example_db)
  = size (products example_db)
  ∧ Dashboard.lowStockProductsCount
      (Dashboard.loadDashboardData (Some "ana") example_db)
    ≤ Dashboard.totalProducts
        (Dashboard.loadDashboardData (Some "ana") example_db)
  ∧ Dashboard.totalEntries
      (Dashboard.loadDashboardData (Some "ana") example_db)
    + Dashboard.totalExits
        (Dashboard.loadDashboardData (Some "ana") example_db)
    = length (stock_movements example_db).
Proof.
  apply (dashboard_counts (Some "ana") example_db).
  - reflexivity.
  - split.
    + apply Forall_singleton. cbn. split; [lia|]. split; [reflexivity|].
      apply list_elem_of_here.
    + cbn. apply NoDup_singleton.
Defined.

(** X9.  Declining the confirmation of a deletion changes nothing.
    Confirming it removes the product and exactly its movements: the rows
    of every other product are as before, in the same order, and so are
    the categories and profiles. *)
Theorem handleDelete_cascades session id d old :
  authenticated session = true →
  products d !! id = Some old →
  Products.handleDelete session false id d = (None, d)
  ∧ ∃ d',
      Products.handleDelete session true id d
      = (Some (toast_success "Produto excluído com sucesso!"), d')
      ∧ products d' = delete id (products d)
      ∧ movements_of id (stock_movements d') = []
      ∧ (∀ k, k ≠ id →
              movements_of k (stock_movements d')
              = movements_of k (stock_movements d))
      ∧ categories d' = categories d
      ∧ profiles d' = profiles d.
Proof.
  intros Ha Hold. split; [done|].
  unfold Products.handleDelete. cbn. rewrite delete_from_products_inv.
  rewrite Ha, bool_decide_eq_true_2 by (by eexists). cbn.
  eexists. split; [done|]. cbn. repeat split; try done.
  - unfold movements_of. rewrite list_filter_filter.
    apply filter_nil_forall. intros m [? ?]. done.
  - intros k Hk. unfold movements_of. rewrite list_filter_filter.
    apply list_filter_iff. intros m. naive_solver.
Qed.

Lemma handleDelete_cascades_witness :
  Products.handleDelete (Some "ana") false "p1" example_db
  = (None, example_db)
  ∧ ∃ d',
      Products.handleDelete (Some "ana") true "p1" example_db
      = (Some (toast_success "Produto excluído com sucesso!"), d')
      ∧ products d' = delete "p1" (products example_db)
      ∧ movements_of "p1" (stock_movements d') = []
      ∧ (∀ k, k ≠ "p1" →
              movements_of k (stock_movements d')
              = movements_of k (stock_movements example_db))
      ∧ categories d' = categories example_db
      ∧ profiles d' = profiles example_db.
Proof.
  apply (handleDelete_cascades (Some "ana") "p1" example_db martelo).
  - reflexivity.
  - reflexivity.
Defined.

Lemma ledger_balance_snoc_other k rows row :
  product_id row ≠ k →
  ledger_balance k (rows ++ [row]) = ledger_balance k rows.
Proof.
  intros Hne. unfold ledger_balance, movements_of.
  rewrite filter_app, filter_cons_False, filter_nil, app_nil_r by done.
  done.
Qed.

Lemma ledger_balance_snoc k rows row :
  product_id row = k →
  movement_type row ∈ ["entrada"; "saida"] →
  ledger_balance k (rows ++ [row])
  = written_balance (movement_type row) (quantity row)
      (ledger_balance k rows).
Proof.
  intros Hk Hty. unfold ledger_balance, movements_of.
  rewrite filter_app, filter_cons_True, filter_nil by done.
  rewrite omap_app, foldl_app. cbn.
  destruct (kind_of_type_is_Some _ Hty) as [kd Hkd].
  unfold spec_movement. rewrite Hkd. cbn.
  by apply spec_balance_step_written.
Qed.

Lemma filter_nil_Forall {A} (P : A → Prop) `{∀ x, Decision (P x)}
    (l : list A) :
  Forall (λ x, ¬ P x) l → filter P l = [].
Proof.
  induction 1 as [|x l Hx _ IH]; [done|]. by rewrite filter_cons_False.
Qed.

Lemma ledger_balance_no_rows k rows :
  Forall (λ m, product_id m ≠ k) rows → ledger_balance k rows = 0%Z.
Proof.
  intros H. unfold ledger_balance, movements_of.
  by rewrite filter_nil_Forall.
Qed.

Lemma ledger_balance_cascade k id rows :
  k ≠ id →
  ledger_balance k (filter (λ m, product_id m ≠ id) rows)
  = ledger_balance k rows.
Proof.
  intros Hne. unfold ledger_balance, movements_of.
  rewrite list_filter_filter. do 2 f_equal.
  apply list_filter_iff. intros m. naive_solver.
Qed.

Lemma balances_match_ledger_insert_product d id p :
  balances_match_ledger d →
  products d !! id = None →
  current_quantity p = 0%Z →
  balances_match_ledger (with_products (<[id := p]> (products d)) d).
Proof.
  intros [Hfk Hbal] Hnone Hq. split; cbn.
  - eapply Forall_impl; [exact Hfk|]. intros m Hm. cbn in Hm.
    apply lookup_insert_is_Some'. by right.
  - apply map_Forall_insert_2; [|done]. cbv beta.
    rewrite Hq, ledger_balance_no_rows; [done|].
    eapply Forall_impl; [exact Hfk|]. intros m [x Hx] Heq. cbn in Hx.
    by rewrite Heq, Hnone in Hx.
Qed.

Lemma balances_match_ledger_replace_product d k old p :
  balances_match_ledger d →
  products d !! k = Some old →
  current_quantity p = current_quantity old →
  balances_match_ledger (with_products (<[k := p]> (products d)) d).
Proof.
  intros [Hfk Hbal] Hold Hq. split; cbn.
  - eapply Forall_impl; [exact Hfk|]. intros m Hm. cbn in Hm.
    apply lookup_insert_is_Some'. by right.
  - apply map_Forall_insert_2; [|done]. cbv beta. rewrite Hq.
    by apply (Hbal k old).
Qed.

Lemma perform_balances_match_ledger parseFloat d a :
  balances_match_ledger d → balances_match_ledger (perform parseFloat d a).
Proof.
  intros Hd.
  destruct a as [s e now id f|s c id|s u now id f|s now id nm ds|s now c];
    cbn.
  - unfold Products.handleSubmit. destruct (_ || _); [done|].
    destruct e as [k|].
    + destruct (update_products _ _ _ _ _) as [d'|] eqn:E; [|done]. cbn.
      apply update_products_inv in E
        as [[-> _]|(old & p & Hold & _ & -> & _ & _ & _ & _ & _ & Hq & _)];
        [done|].
      by eapply balances_match_ledger_replace_product.
    + destruct (insert_into_products _ _ _ _ _) as [d'|] eqn:E; [|done]. cbn.
      apply insert_into_products_inv in E
        as (p & -> & _ & Hnone & _ & _ & _ & _ & _ & _ & Hq & _).
      by apply balances_match_ledger_insert_product.
  - unfold Products.handleDelete. destruct (negb c); [done|].
    rewrite delete_from_products_inv. cbn.
    destruct (bool_decide _ && _) eqn:E; [|done].
    destruct Hd as [Hfk Hbal]. split; cbn.
    + apply Forall_forall. intros m [Hne Hin]%list_elem_of_filter.
      rewrite Forall_forall in Hfk. rewrite lookup_delete_ne by done.
      by apply Hfk.
    + intros k p [Hk Hp]%lookup_delete_Some. cbn.
      rewrite ledger_balance_cascade by done. by apply (Hbal k p).
  - unfold Stock.handleSubmit. destruct (_ || _); [done|].
    destruct (number_le_zero _); [done|].
    destruct (insert_into_stock_movements _ _ _ _ _) as [d'|] eqn:E; [|done].
    cbn. apply insert_into_stock_movements_committed in E
      as (q & old & _ & _ & _ & _ & Hty & Hold & _ & _ & _ & ->).
    cbn in *. destruct Hd as [Hfk Hbal]. split; cbn.
    + apply Forall_app. split.
      * eapply Forall_impl; [exact Hfk|]. intros m Hm. cbn in Hm.
        apply lookup_insert_is_Some'. by right.
      * apply Forall_singleton. cbn. apply lookup_insert_is_Some'. by left.
    + intros k p Hp. cbn.
      destruct (decide (Stock.form_product_id f = k)) as [<-|Hne].
      * rewrite lookup_insert_eq in Hp. injection Hp as <-. cbn.
        rewrite ledger_balance_snoc by done. cbn.
        by rewrite (Hbal _ old Hold).
      * rewrite lookup_insert_ne in Hp by done.
        rewrite ledger_balance_snoc_other by done. by apply (Hbal k p).
  - destruct (insert_into_categories _ _ _ _ _ _) as [d'|] eqn:E; [|done].
    by apply insert_into_categories_inv in E as (_ & _ & _ & ->).
  - destruct (delete_from_categories _ _ _ _) as [d'|] eqn:E; [|done].
    apply delete_from_categories_inv in E as [->|(_ & _ & ->)]; [done|].
    destruct Hd as [Hfk Hbal]. split; cbn.
    + eapply Forall_impl; [exact Hfk|]. intros m [p Hp]. cbn.
      rewrite lookup_fmap, Hp. by eexists.
    + apply map_Forall_fmap. intros k p Hp. cbn.
      rewrite <- (Hbal k p Hp). unfold on_delete_set_null.
      by case_bool_decide.
Qed.

(** X10.  Through the pages the stored balance never drifts from the
    ledger: if every product holds the clamped fold, from zero, of its own
    ledger rows, it still does after any sequence of page actions
    (registering, editing and deleting products, recording movements,
    creating and deleting categories). *)
Theorem perform_all_balances_match_ledger parseFloat acts : ∀ d,
  balances_match_ledger d →
  balances_match_ledger (perform_all parseFloat d acts).
Proof.
  induction acts as [|a acts IH]; intros d Hd; [done|].
  cbn. by apply IH, perform_balances_match_ledger.
Qed.

Lemma perform_all_balances_match_ledger_witness :
  balances_match_ledger
    (perform_all example_parseFloat example_db example_actions).
Proof.
  apply (perform_all_balances_match_ledger example_parseFloat example_actions
           example_db).
  split.
  - apply Forall_singleton. by eexists.
  - apply map_Forall_singleton. vm_compute. reflexivity.
Defined.

Lemma or_null_Some s : s ≠ "" → or_null s = Some s.
Proof. intros H. unfold or_null. by rewrite bool_decide_eq_false_2. Qed.

Lemma or_null_default (o : option string) :
  o ≠ Some "" → or_null (default "" o) = o.
Proof.
  intros H. destruct o as [s|]; cbn; [|done].
  apply or_null_Some. by intros ->.
Qed.



(** X12.  An edit of a product that is no longer in the table matches no
    row, which is no error: the page shows its success toast and the
    database is unchanged. *)
Theorem handleSubmit_edit_no_row parseFloat session k now new_id f d :
  Products.form_name f ≠ "" → Products.form_unit f ≠ "" →
  products d !! k = None →
  Products.handleSubmit parseFloat session (Some k) now new_id f d
  = (toast_success "Produto atualizado com sucesso!", d).
Proof.
  intros Hn Hu Hk. unfold Products.handleSubmit.
  rewrite !bool_decide_eq_false_2 by done. cbn.
  unfold update_products. by rewrite Hk.
Qed.

Lemma handleSubmit_edit_no_row_witness :
  Products.handleSubmit example_parseFloat (Some "ana") (Some "p9") 7 "p2"
    example_product_form example_db
  = (toast_success "Produto atualizado com sucesso!", example_db).
Proof.
  apply (handleSubmit_edit_no_row example_parseFloat (Some "ana") "p9" 7 "p2"
           example_product_form example_db).
  - discriminate.
  - discriminate.
  - reflexivity.
Defined.

(** X13.  Opening the edit dialog on a stored product and saving it as it
    opened leaves the product as it was but for [updated_at], provided its
    name and unit are not empty, its description and category are not
    empty strings, and printing then parsing its minimum gives the
    minimum back. *)
Theorem handleEdit_then_handleSubmit
    parseFloat toString session k now new_id d p :
  authenticated session = true →
  products d !! k = Some p →
  products_check p = [] →
  products_category_fk d p = [] →
  name p ≠ "" → product_unit p ≠ "" →
  description p ≠ Some "" → category_id p ≠ Some "" →
  parseFloat (toString (Num (minimum_quantity p)))
  = Num (minimum_quantity p) →
  Products.handleSubmit parseFloat session (Some k) now new_id
    (Products.handleEdit toString p) d
  = (toast_success "Produto atualizado com sucesso!",
     with_products (<[k := with_updated_at now p]> (products d)) d).
Proof.
  intros Ha Hp Hc Hfk Hn Hu Hd Hcat Hrt. unfold Products.handleSubmit.
  cbn. rewrite !bool_decide_eq_false_2 by done. cbn.
  unfold update_products. rewrite Hp, permitted_products, Ha, Hrt. cbn.
  rewrite !or_null_default by done.
  unfold update_updated_at_column.
  replace (products_check _) with (products_check p) by done.
  rewrite Hc. cbn.
  replace (products_category_fk d _) with (products_category_fk d p) by done.
  rewrite Hfk. do 3 f_equal; by destruct p.
Qed.

Lemma handleEdit_then_handleSubmit_witness :
  Products.handleSubmit example_parseFloat (Some "ana") (Some "p1") 7 "p2"
    (Products.handleEdit example_toString martelo) example_db
  = (toast_success "Produto atualizado com sucesso!",
     with_products (<["p1" := with_updated_at 7 martelo]>
                      (products example_db)) example_db).
Proof.
  apply (handleEdit_then_handleSubmit example_parseFloat example_toString
           (Some "ana") "p1" 7 "p2" example_db martelo).
  - reflexivity.
  - reflexivity.
  - reflexivity.
  - reflexivity.
  - discriminate.
  - discriminate.
  - discriminate.
  - discriminate.
  - reflexivity.
Defined.



(** X15.  Once an identity has registered, the dashboard greets it by the
    name it gave, or by the default name when it gave none; no other user
    can read that profile; products and ledger are untouched by the
    registration. *)
Theorem sign_up_then_greeting now new_id fn d d' userName :
  insert_into_auth_users now new_id fn d = committed d' →
  Dashboard.checkAuth (Some new_id) userName d'
  = (None, default "Usuário" fn)
  ∧ (∀ other, other ≠ new_id →
              Dashboard.select_profile (Some other) new_id d' = None)
  ∧ products d' = products d
  ∧ stock_movements d' = stock_movements d.
Proof.
  intros (Hu & Hp & ->)%insert_into_auth_users_inv.
  unfold Dashboard.checkAuth, Dashboard.select_profile. split; [|split].
  - rewrite permitted_select_profile, bool_decide_eq_true_2 by done. cbn.
    by rewrite lookup_insert_eq.
  - intros other Hne. rewrite permitted_select_profile.
    rewrite bool_decide_eq_false_2; [done|]. by intros [= ->].
  - done.
Qed.

Lemma sign_up_then_greeting_witness :
  Dashboard.checkAuth (Some "carla") "" example_db_with_carla
  = (None, default "Usuário" (Some "Carla"))
  ∧ (∀ other, other ≠ "carla" →
              Dashboard.select_profile (Some other) "carla"
                example_db_with_carla = None)
  ∧ products example_db_with_carla = products example_db
  ∧ stock_movements example_db_with_carla = stock_movements example_db.
Proof.
  apply (sign_up_then_greeting 3 "carla" (Some "Carla") example_db
           example_db_with_carla "").
  vm_compute. reflexivity.
Defined.







(** X18.  A registration naming a category that is not in the table is
    refused: error toast, database unchanged. *)
Theorem handleSubmit_unknown_category
    parseFloat session now new_id f d :
  Products.form_name f ≠ "" → Products.form_unit f ≠ "" →
  Products.form_category_id f ≠ "" →
  categories d !! Products.form_category_id f = None →
  Products.handleSubmit parseFloat session None now new_id f d
  = (toast_error "Erro ao criar produto", d).
Proof.
  intros Hn Hu Hc Hnone. unfold Products.handleSubmit.
  rewrite !bool_decide_eq_false_2 by done. cbn.
  destruct (insert_into_products _ _ _ _ _) as [d'|] eqn:E; [|done].
  apply insert_into_products_inv in E
    as (p & _ & _ & _ & _ & Hfk & _ & _ & Hcat & _).
  cbn in Hcat. rewrite or_null_Some in Hcat by done.
  rewrite products_category_fk_nil in Hfk.
  destruct (Hfk _ Hcat) as [x Hx]. by rewrite Hnone in Hx.
Qed.

Lemma handleSubmit_unknown_category_witness :
  Products.handleSubmit example_parseFloat (Some "ana") None 7 "p2"
    example_orphan_product_form example_db
  = (toast_error "Erro ao criar produto", example_db).
Proof.
  apply (handleSubmit_unknown_category example_parseFloat (Some "ana") 7 "p2"
           example_orphan_product_form example_db).
  - discriminate.
  - discriminate.
  - discriminate.
  - reflexivity.
Defined.

(** X19.  A movement for a product that is not in the table, or of a type
    other than the two, is answered with an error toast and changes
    nothing. *)
Theorem Stock_handleSubmit_refuses
    parseFloat session userId now new_id f d :
  products d !! Stock.form_product_id f = None
  ∨ Stock.form_movement_type f ∉ ["entrada"; "saida"] →
  ∃ message,
    Stock.handleSubmit parseFloat session userId now new_id f d
    = (toast_error message, d).
Proof.
  intros Hbad. unfold Stock.handleSubmit.
  destruct (_ || _); [by eexists|].
  destruct (number_le_zero _); [by eexists|].
  destruct (insert_into_stock_movements _ _ _ _ _) as [d'|] eqn:E;
    [|by eexists].
  apply insert_into_stock_movements_committed in E
    as (q & old & _ & _ & _ & _ & Hty & Hold & _).
  cbn in Hty, Hold. destruct Hbad as [Hnone|Hnty]; [|done].
  by rewrite Hnone in Hold.
Qed.

Lemma Stock_handleSubmit_refuses_witness :
  ∃ message,
    Stock.handleSubmit example_parseFloat (Some "ana") "ana" 8 "m1"
      example_stock_form example_db
    = (toast_error message, example_db).
Proof.
  apply (Stock_handleSubmit_refuses example_parseFloat (Some "ana") "ana" 8
           "m1" example_stock_form example_db).
  left. reflexivity.
Defined.

Lemma merge_sort_head_newest (now : Z) (rows : list stock_movement)
    (NEW : stock_movement) :
  movement_created_at NEW = now →
  Forall (λ m, (movement_created_at m < now)%Z) rows →
  head (merge_sort Stock.newer_first (rows ++ [NEW])) = Some NEW.
Proof.
  intros Hnow Hold.
  pose proof (StronglySorted_merge_sort Stock.newer_first (rows ++ [NEW]))
    as Hss.
  pose proof (merge_sort_Permutation Stock.newer_first (rows ++ [NEW]))
    as Hperm.
  destruct (merge_sort Stock.newer_first (rows ++ [NEW])) as [|x l].
  { apply Permutation_nil_l in Hperm. by destruct rows. }
  cbn. f_equal.
  assert (x ∈ rows ++ [NEW]) as Hx by (rewrite <- Hperm; left).
  apply elem_of_app in Hx as [Hx|Hx%list_elem_of_singleton]; [|done].
  assert (NEW ∈ x :: l) as HN by (rewrite Hperm; set_solver).
  apply elem_of_cons in HN as [->|HN]; [done|].
  apply StronglySorted_cons in Hss as [Hall _].
  rewrite Forall_forall in Hall, Hold.
  specialize (Hall _ HN). specialize (Hold _ Hx).
  unfold Stock.newer_first in Hall. lia.
Qed.

(** X20.  A movement recorded at an instant later than every row of the
    ledger is the first row of the history its author then loads, with
    the product's name and unit and the author's own name (or the
    placeholder, if the profile is missing or its name empty). *)
Theorem new_movement_tops_history session now new_id r d d' :
  insert_into_stock_movements session now new_id r d = committed d' →
  Forall (λ m, (movement_created_at m < now)%Z) (stock_movements d) →
  ∃ q old,
    new_quantity r = Some q
    ∧ products d !! new_product_id r = Some old
    ∧ head (Stock.loadMovements session d')
      = Some {| Stock.view_row := movement_row now new_id r q;
                Stock.view_products := Some (name old, product_unit old);
                Stock.responsible_name :=
                  Stock.name_or_default
                    (full_name <$> profiles d !! new_responsible_user_id r)
             |}.
Proof.
  intros H Hnew.
  apply insert_into_stock_movements_committed in H
    as (q & old & Hq & _ & _ & Hs & _ & Hold & _ & _ & _ & ->).
  exists q, old. split; [done|]. split; [done|].
  assert (authenticated session = true) as Ha by by rewrite Hs.
  remember (with_products
              (<[new_product_id r :=
                   with_updated_at now
                     (with_current_quantity
                        (written_balance (new_movement_type r) q
                           (current_quantity old)) old)]> (products d))
              (with_stock_movements
                 (stock_movements d ++ [movement_row now new_id r q]) d))
    as d' eqn:Hd'.
  assert (head (Stock.movementsData session d')
          = Some (movement_row now new_id r q)) as Hh.
  { unfold Stock.movementsData. rewrite visible_stock_movements, Ha, Hd'.
    cbn [stock_movements with_products with_stock_movements].
    pose proof (merge_sort_head_newest now (stock_movements d)
                  (movement_row now new_id r q) eq_refl Hnew) as Hh.
    destruct (merge_sort _ _) as [|x l]; [done|]. exact Hh. }
  unfold Stock.loadMovements.
  destruct (Stock.movementsData session d') as [|x l]; [done|].
  cbn in Hh. injection Hh as ->. rewrite fmap_cons. cbn [head].
  f_equal. f_equal.
  - unfold Stock.embedded_product. rewrite permitted_products, Ha, Hd'. cbn.
    by rewrite lookup_insert_eq.
  - rewrite profileMap_lookup.
    + rewrite Hd'. cbn. by rewrite Hs, bool_decide_eq_true_2.
    + apply elem_of_remove_dups. rewrite fmap_cons. apply list_elem_of_here.
Qed.

Lemma new_movement_tops_history_witness :
  ∃ q old,
    new_quantity example_exit = Some q
    ∧ products example_db !! new_product_id example_exit = Some old
    ∧ head (Stock.loadMovements (Some "ana") example_db_after_exit)
      = Some {| Stock.view_row := movement_row 5 "m1" example_exit q;
                Stock.view_products := Some (name old, product_unit old);
                Stock.responsible_name :=
                  Stock.name_or_default
                    (full_name
                       <$> profiles example_db
                           !! new_responsible_user_id example_exit) |}.
Proof.
  apply (new_movement_tops_history (Some "ana") 5 "m1" example_exit
           example_db example_db_after_exit).
  - vm_compute. reflexivity.
  - apply Forall_singleton. cbn. lia.
Defined.

(** ** Search on the products page *)

Lemma append_cons c (t b : string) : String c t +:+ b = String c (t +:+ b).
Proof. reflexivity. Qed.

Lemma append_nil (b : string) : "" +:+ b = b.
Proof. reflexivity. Qed.

Lemma append_nil_r (a : string) : a +:+ "" = a.
Proof. induction a as [|c a IH]; [done|]. by rewrite append_cons, IH. Qed.

Lemma prefix_spec (t s : string) :
  String.prefix t s = true ↔ ∃ b, s = t +:+ b.
Proof.
  revert s. induction t as [|c t IH]; intros [|c' s]; cbn.
  - split; [by exists "" | done].
  - split; [by exists (String c' s) | done].
  - split; [done | intros [b Hb]; by rewrite append_cons in Hb].
  - destruct (Ascii.ascii_dec c c') as [->|Hne].
    + rewrite IH. split; intros [b Hb]; exists b;
        rewrite append_cons in *; congruence.
    + split; [done|]. intros [b Hb]. rewrite append_cons in Hb. congruence.
Qed.

Lemma includes_spec (s t : string) :
  Products.includes s t = true ↔ ∃ a b, s = a +:+ t +:+ b.
Proof.
  induction s as [|c s IH].
  - change (Products.includes "" t)
      with (if String.prefix t "" then true else false).
    destruct (String.prefix t "") eqn:E.
    + split; [|done]. intros _. apply prefix_spec in E as [b Hb].
      by exists "", b.
    + split; [done|]. intros (a & b & Hab).
      destruct a as [|c a]; [|by rewrite append_cons in Hab].
      rewrite append_nil in Hab.
      assert (String.prefix t "" = true) as E'
        by (apply prefix_spec; by exists b).
      congruence.
  - change (Products.includes (String c s) t)
      with (if String.prefix t (String c s) then true
            else Products.includes s t).
    destruct (String.prefix t (String c s)) eqn:E.
    + split; [|done]. intros _. apply prefix_spec in E as [b Hb].
      by exists "", b.
    + rewrite IH. split.
      * intros (a & b & ->). by exists (String c a), b.
      * intros (a & b & Hab). destruct a as [|c' a].
        -- rewrite append_nil in Hab.
           assert (String.prefix t (String c s) = true) as E'
             by (apply prefix_spec; by exists b).
           congruence.
        -- rewrite append_cons in Hab. injection Hab as _ ->.
           by exists a, b.
Qed.

(** X21.  The search keeps exactly the products whose lower-cased name
    contains the lower-cased term, in the order of the list; a term that
    lower-cases to the empty string keeps them all, and a term equal to a
    product's name up to case finds that product. *)
Theorem filteredProducts_search toLowerCase searchTerm products p :
  (p ∈ Products.filteredProducts toLowerCase searchTerm products
   ↔ p ∈ products
     ∧ ∃ a b, toLowerCase (name p)
              = a +:+ toLowerCase searchTerm +:+ b)
  ∧ Products.filteredProducts toLowerCase searchTerm products
    `sublist_of` products
  ∧ (toLowerCase searchTerm = "" →
     Products.filteredProducts toLowerCase searchTerm products = products)
  ∧ (toLowerCase searchTerm = toLowerCase (name p) → p ∈ products →
     p ∈ Products.filteredProducts toLowerCase searchTerm products).
Proof.
  unfold Products.filteredProducts.
  split; [|split; [|split]].
  - rewrite list_elem_of_filter, includes_spec. tauto.
  - apply sublist_filter.
  - intros ->. apply filter_all_forall. intros q.
    apply includes_spec. by exists "", (toLowerCase (name q)).
  - intros -> Hp. apply list_elem_of_filter. split; [|done].
    apply includes_spec. exists "", "".
    by rewrite append_nil, append_nil_r.
Qed.

(** ** Category names *)

Lemma step_categories d r :
  categories (step d r) = categories d
  ∨ (∃ uid now id nm ds,
       r = {| req_uid := uid; req_now := now;
              req_statement := insert_category id nm ds |}
       ∧ map_Forall (λ _ c, category_name c ≠ nm) (categories d)
       ∧ categories (step d r)
         = <[id := {| category_name := nm; category_description := ds;
                      category_created_at := now |}]> (categories d))
  ∨ (∃ k, categories (step d r) = delete k (categories d)).
Proof.
  destruct r as [uid now st]. unfold step, execute. cbn.
  destruct st as [id fn|id nm ds|k|id pr|k u|k|id mr|k set|k].
  - destruct (insert_into_auth_users _ _ _ _) as [d'|] eqn:E; [|by left].
    apply insert_into_auth_users_inv in E as (_ & _ & ->). by left.
  - destruct (insert_into_categories _ _ _ _ _ _) as [d'|] eqn:E; [|by left].
    apply insert_into_categories_inv in E as (_ & Hn & _ & ->).
    right; left. by exists uid, now, id, nm, ds.
  - destruct (delete_from_categories _ _ _ _) as [d'|] eqn:E; [|by left].
    apply delete_from_categories_inv in E as [->|(_ & _ & ->)]; [by left|].
    right; right. by exists k.
  - destruct (insert_into_products _ _ _ _ _) as [d'|] eqn:E; [|by left].
    apply insert_into_products_inv in E as (p & -> & _). by left.
  - destruct (update_products _ _ _ _ _) as [d'|] eqn:E; [|by left].
    apply update_products_inv in E as [[-> _]|(old & p & _ & _ & -> & _)];
      by left.
  - rewrite delete_from_products_inv. cbn. left. by destruct (_ && _).
  - destruct (insert_into_stock_movements _ _ _ _ _) as [d'|] eqn:E;
      [|by left].
    apply insert_into_stock_movements_committed in E
      as (q & old & _ & _ & _ & _ & _ & _ & _ & _ & _ & ->). by left.
  - rewrite update_stock_movements_no_effect. by left.
  - rewrite delete_from_stock_movements_no_effect. by left.
Qed.

Lemma step_category_names_unique d r :
  category_names_unique d → category_names_unique (step d r).
Proof.
  intros Hd.
  destruct (step_categories d r)
    as [Heq|[(uid & now & id & nm & ds & _ & Hn & Heq)|[k Heq]]];
    unfold category_names_unique; rewrite Heq; [done| |].
  - intros i j ci cj Hi Hj Hname.
    apply lookup_insert_Some in Hi as [[<- <-]|[Hi1 Hi]];
      apply lookup_insert_Some in Hj as [[<- <-]|[Hj1 Hj]]; cbn in *.
    + done.
    + by destruct (Hn j cj Hj).
    + by destruct (Hn i ci Hi).
    + by apply (Hd i j ci cj).
  - intros i j ci cj [_ Hi]%lookup_delete_Some [_ Hj]%lookup_delete_Some.
    by apply Hd.
Qed.

(** X22.  If no two categories share a name, none do after any list of
    requests. *)
Theorem run_category_names_unique rs : ∀ d,
  category_names_unique d → category_names_unique (run d rs).
Proof.
  induction rs as [|r rs IH]; intros d Hd; [done|].
  cbn. by apply IH, step_category_names_unique.
Qed.

Lemma run_category_names_unique_witness :
  category_names_unique (run example_db example_requests).
Proof.
  apply (run_category_names_unique example_requests example_db).
  intros i j ci cj Hi Hj _. cbn in Hi, Hj.
  apply lookup_singleton_Some in Hi as [<- _].
  apply lookup_singleton_Some in Hj as [<- _]. reflexivity.
Defined.
